(** * Virtual try-on editor: the outfit-history store and its error translation

    A shallow embedding of the client-side state machine of [App.tsx]
    (outfit history, current index, pose index, busy flag, saved-outfit
    gallery) and of [getFriendlyErrorMessage] from [lib/utils.ts].

    Conventions of the embedding.
    - React state is a record [State]; every [setX] of the source is a
      record update.  A handler reads the values of the render in which it
      was created; after an [await] it still reads those (stale) values
      but its functional updaters ([setX(prev => ...)]) read the state of
      the moment the promise settles.  An async handler is therefore split
      into its synchronous prefix ([*_begin]) and its continuation
      ([settle]), which receives the captured values in a [Pending].
    - JavaScript strings are [string]; only ASCII separators and needles
      are searched for, for which byte-wise and UTF-16 search agree.
    - [poseImages] is a JS object used as a map whose insertion order is
      observable through [Object.values(...)[0]]: an association list.
    - Layers are modelled as values.  In the source a saved outfit shares
      its layer objects with the history; nothing below depends on it. *)

From stdpp Require Import base option list strings pretty.
From Stdlib Require Import ZArith Lia.

Local Open Scope string_scope.
Local Open Scope nat_scope.
Set Warnings "-register-all".

(** ** JavaScript string helpers *)

(** Truthiness of a JS string: only the empty string is falsy. *)
Definition truthy (s : string) : bool :=
  match s with
  | EmptyString => false
  | String _ _ => true
  end.

(** Truthiness of [string | null | undefined]. *)
Definition truthy_opt (o : option string) : bool :=
  match o with
  | Some s => truthy s
  | None => false
  end.

(** [startsWith p s]: [s.startsWith(p)]. *)
Fixpoint startsWith (p s : string) : bool :=
  match p, s with
  | EmptyString, _ => true
  | String a p', String b s' => if Ascii.eqb a b then startsWith p' s' else false
  | String _ _, EmptyString => false
  end.

(** [includes needle s]: [s.includes(needle)]. *)
Fixpoint includes (needle s : string) : bool :=
  if startsWith needle s then true
  else match s with
       | EmptyString => false
       | String _ s' => includes needle s'
       end.

(** [split_go sep skip acc s]: the pieces of [s] cut at every occurrence of
    the non-empty separator [sep], scanning left to right; [acc] is the
    current piece, reversed, and [skip] counts the characters of a matched
    separator still to be dropped. *)
Fixpoint split_go (sep : string) (skip : nat) (acc : string) (s : string)
  : list string :=
  match s with
  | EmptyString => [String.rev acc]
  | String c s' =>
      match skip with
      | S k => split_go sep k acc s'
      | O =>
          if startsWith sep s
          then String.rev acc :: split_go sep (String.length sep - 1) EmptyString s'
          else split_go sep 0 (String c acc) s'
      end
  end.

(** [split sep s]: [s.split(sep)] for a non-empty [sep]. *)
Definition split (sep s : string) : list string := split_go sep 0 EmptyString s.

(** ** Values caught by a [catch] clause and parsed JSON *)

(** The [unknown] value a [catch (err)] receives, as far as
    [getFriendlyErrorMessage] inspects it. *)
Inductive JsValue :=
| VError (message : string)               (* error instanceof Error *)
| VString (s : string)                     (* typeof error === 'string' *)
| VOther (isTruthy : bool) (str : string). (* anything else, with String(error) *)

(** What [JSON.parse] can return.  A number is kept as its literal: its
    value plays no role below. *)
Inductive Json :=
| JNull
| JBool (b : bool)
| JNumber (literal : string)
| JString (s : string)
| JArray (items : list Json)
| JObject (fields : list (string * Json)).  (* own properties, each key once *)

(** [j?.k]: [None] is [undefined].  Only the keys [error] and [message] are
    ever read, which no primitive, array or prototype defines. *)
Definition getProp (k : string) (j : Json) : option Json :=
  match j with
  | JObject fields => snd <$> List.find (fun kv => String.eqb (fst kv) k) fields
  | _ => None
  end.

Definition unsupportedFormatMessage : string :=
  "Unsupported file format. Please upload an image format like PNG, JPEG, or WEBP.".

Definition fileTypeMessage (mimeType : string) : string :=
  "File type '" +:+ mimeType +:+
  "' is not supported. Please use a format like PNG, JPEG, or WEBP.".

(** [nestedMessage.split(': ')[1] || 'unsupported'] *)
Definition mimeTypeOf (nestedMessage : string) : string :=
  match split ": " nestedMessage !! 1%nat with
  | Some s => if truthy s then s else "unsupported"
  | None => "unsupported"
  end.

Definition rawMessageOf (error : JsValue) : string :=
  match error with
  | VError message => message
  | VString s => s
  | VOther true str => str
  | VOther false _ => "An unknown error occurred."
  end.

(** ** types.ts: the data model *)

(** Modelled from the spec: the declaration of [WardrobeItem] in
    [types.ts], [{ id, name, url }], all strings.  The fields carry a
    prefix here, two records cannot share a field name. *)
Record WardrobeItem := {
  item_id : string;
  item_name : string;
  item_url : string }.

(** [Record<string, string>] in insertion order. *)
Definition PoseImages := list (string * string).

(** Modelled from the spec: the declaration of [OutfitLayer] in
    [types.ts], a garment or [null] and the renders cached per pose
    instruction. *)
Record OutfitLayer := {
  garment : option WardrobeItem;      (* null for the base layer *)
  poseImages : PoseImages }.

(** Modelled from the spec: the declaration of [SavedOutfit] in
    [types.ts], as [handleSaveOutfit] builds it. *)
Record SavedOutfit := {
  outfit_id : string;
  thumbnailUrl : string;
  layers : list OutfitLayer;
  createdAt : string }.

(** [poseImages[k]]: [None] is [undefined]. *)
Fixpoint pi_get (k : string) (m : PoseImages) : option string :=
  match m with
  | [] => None
  | (k', v) :: m' => if String.eqb k' k then Some v else pi_get k m'
  end.

(** [poseImages[k] = v]: an existing key keeps its place, a new one goes
    last. *)
Fixpoint pi_set (k v : string) (m : PoseImages) : PoseImages :=
  match m with
  | [] => [(k, v)]
  | (k', v') :: m' =>
      if String.eqb k' k then (k', v) :: m' else (k', v') :: pi_set k v m'
  end.

(** [Object.values(poseImages)[0]] *)
Definition firstValue (m : PoseImages) : option string := head m.*2.

Definition POSE_INSTRUCTIONS : list string :=
  [ "Full frontal view, hands on hips";
    "Slightly turned, 3/4 view";
    "Side profile view";
    "Jumping in the air, mid-action shot";
    "Walking towards camera";
    "Leaning against a wall";
    "Sitting on the floor" ].

(** A value used as a property key: [undefined] becomes the key
    ["undefined"]. *)
Definition propKey (o : option string) : string := default "undefined" o.

(** The key under which pose number [n] is cached. *)
Definition poseKey (n : nat) : string := propKey (POSE_INSTRUCTIONS !! n).

(** ** App.tsx: the component state *)

Inductive Tab := editor | gallery.

Record State := {
  modelImageUrl : option string;
  outfitHistory : list OutfitLayer;
  currentOutfitIndex : nat;
  isLoading : bool;
  loadingMessage : string;
  error : option string;
  currentPoseIndex : nat;
  wardrobe : list WardrobeItem;
  savedOutfits : list SavedOutfit;
  activeTab : Tab }.

Definition setModelImageUrl (v : option string) (st : State) : State :=
  {| modelImageUrl := v; outfitHistory := outfitHistory st;
     currentOutfitIndex := currentOutfitIndex st; isLoading := isLoading st;
     loadingMessage := loadingMessage st; error := error st;
     currentPoseIndex := currentPoseIndex st; wardrobe := wardrobe st;
     savedOutfits := savedOutfits st; activeTab := activeTab st |}.

Definition setOutfitHistory (v : list OutfitLayer) (st : State) : State :=
  {| modelImageUrl := modelImageUrl st; outfitHistory := v;
     currentOutfitIndex := currentOutfitIndex st; isLoading := isLoading st;
     loadingMessage := loadingMessage st; error := error st;
     currentPoseIndex := currentPoseIndex st; wardrobe := wardrobe st;
     savedOutfits := savedOutfits st; activeTab := activeTab st |}.

Definition setCurrentOutfitIndex (v : nat) (st : State) : State :=
  {| modelImageUrl := modelImageUrl st; outfitHistory := outfitHistory st;
     currentOutfitIndex := v; isLoading := isLoading st;
     loadingMessage := loadingMessage st; error := error st;
     currentPoseIndex := currentPoseIndex st; wardrobe := wardrobe st;
     savedOutfits := savedOutfits st; activeTab := activeTab st |}.

Definition setIsLoading (v : bool) (st : State) : State :=
  {| modelImageUrl := modelImageUrl st; outfitHistory := outfitHistory st;
     currentOutfitIndex := currentOutfitIndex st; isLoading := v;
     loadingMessage := loadingMessage st; error := error st;
     currentPoseIndex := currentPoseIndex st; wardrobe := wardrobe st;
     savedOutfits := savedOutfits st; activeTab := activeTab st |}.

Definition setLoadingMessage (v : string) (st : State) : State :=
  {| modelImageUrl := modelImageUrl st; outfitHistory := outfitHistory st;
     currentOutfitIndex := currentOutfitIndex st; isLoading := isLoading st;
     loadingMessage := v; error := error st;
     currentPoseIndex := currentPoseIndex st; wardrobe := wardrobe st;
     savedOutfits := savedOutfits st; activeTab := activeTab st |}.

Definition setError (v : option string) (st : State) : State :=
  {| modelImageUrl := modelImageUrl st; outfitHistory := outfitHistory st;
     currentOutfitIndex := currentOutfitIndex st; isLoading := isLoading st;
     loadingMessage := loadingMessage st; error := v;
     currentPoseIndex := currentPoseIndex st; wardrobe := wardrobe st;
     savedOutfits := savedOutfits st; activeTab := activeTab st |}.

Definition setCurrentPoseIndex (v : nat) (st : State) : State :=
  {| modelImageUrl := modelImageUrl st; outfitHistory := outfitHistory st;
     currentOutfitIndex := currentOutfitIndex st; isLoading := isLoading st;
     loadingMessage := loadingMessage st; error := error st;
     currentPoseIndex := v; wardrobe := wardrobe st;
     savedOutfits := savedOutfits st; activeTab := activeTab st |}.

Definition setWardrobe (v : list WardrobeItem) (st : State) : State :=
  {| modelImageUrl := modelImageUrl st; outfitHistory := outfitHistory st;
     currentOutfitIndex := currentOutfitIndex st; isLoading := isLoading st;
     loadingMessage := loadingMessage st; error := error st;
     currentPoseIndex := currentPoseIndex st; wardrobe := v;
     savedOutfits := savedOutfits st; activeTab := activeTab st |}.

Definition setSavedOutfits (v : list SavedOutfit) (st : State) : State :=
  {| modelImageUrl := modelImageUrl st; outfitHistory := outfitHistory st;
     currentOutfitIndex := currentOutfitIndex st; isLoading := isLoading st;
     loadingMessage := loadingMessage st; error := error st;
     currentPoseIndex := currentPoseIndex st; wardrobe := wardrobe st;
     savedOutfits := v; activeTab := activeTab st |}.

Definition setActiveTab (v : Tab) (st : State) : State :=
  {| modelImageUrl := modelImageUrl st; outfitHistory := outfitHistory st;
     currentOutfitIndex := currentOutfitIndex st; isLoading := isLoading st;
     loadingMessage := loadingMessage st; error := error st;
     currentPoseIndex := currentPoseIndex st; wardrobe := wardrobe st;
     savedOutfits := savedOutfits st; activeTab := v |}.

(** [st |> setA a |> setB b]: the updates of a handler, in source order. *)
Notation "st |> f" := (f st) (at level 45, left associativity, only parsing).

(** The state of the first render. *)
Definition initialState (defaultWardrobe : list WardrobeItem) : State :=
  {| modelImageUrl := None; outfitHistory := []; currentOutfitIndex := 0;
     isLoading := false; loadingMessage := ""; error := None;
     currentPoseIndex := 0; wardrobe := defaultWardrobe;
     savedOutfits := []; activeTab := editor |}.

(** *** Derived values ([useMemo]) *)

(** [outfitHistory.slice(0, currentOutfitIndex + 1)] *)
Definition activeOutfitLayers (st : State) : list OutfitLayer :=
  take (S (currentOutfitIndex st)) (outfitHistory st).

Definition displayImageUrl (st : State) : option string :=
  match outfitHistory st with
  | [] => modelImageUrl st
  | _ :: _ =>
      match outfitHistory st !! currentOutfitIndex st with
      | None => modelImageUrl st
      | Some currentLayer =>
          match pi_get (poseKey (currentPoseIndex st)) (poseImages currentLayer) with
          | Some v => Some v
          | None => firstValue (poseImages currentLayer)
          end
      end
  end.

(** *** The external image service *)

(** A [File], as far as the store is concerned: an opaque handle. *)
Definition File := string.

(** The call an async handler awaits. *)
Inductive Request :=
| generateVirtualTryOnImage (modelImage : string) (garmentFile : File)
| generatePoseVariation (baseImage : string) (poseInstruction : string)
| changeGarmentColor (baseImage : string) (garmentName : string) (color : string)
(* [urlToFile(url, name)] followed by [generateVirtualTryOnImage]: both
   awaited inside the same [try] *)
| regenerateFromUrl (garmentUrl garmentName : string) (modelImage : string).

(** How the awaited promise settles. *)
Inductive Settled :=
| Fulfilled (newImageUrl : string)
| Rejected (err : JsValue).

(** What the continuation after the [await] captured from its render. *)
Inductive Pending :=
| PGarmentSelect (outfitIndex poseIndex : nat) (garmentInfo : WardrobeItem)
| PPoseSelect (outfitIndex prevPoseIndex : nat) (poseInstruction : string)
| PRegenerate (outfitIndex poseIndex : nat)
| PChangeColor (outfitIndex poseIndex : nat) (garmentInfo : WardrobeItem).

(** How the synchronous prefix of a handler ends. *)
Inductive Outcome :=
| Returned (st : State)                 (* [return]: no call was issued *)
| Threw                                 (* TypeError before any [setX] *)
| Awaiting (st : State) (request : Request) (k : Pending).

Section Store.

(** [JSON.parse], a builtin of the platform: [None] is a [SyntaxError]. *)
Variable JSON_parse : string → option Json.

(** ** lib/utils.ts: [getFriendlyErrorMessage] *)

Definition getFriendlyErrorMessage (error : JsValue) (context : string) : string :=
  let rawMessage := rawMessageOf error in
  if includes "Unsupported MIME type" rawMessage then
    match JSON_parse rawMessage with
    | Some errorJson =>
        match getProp "error" errorJson ≫= getProp "message" with
        | Some (JString nestedMessage) =>
            if truthy nestedMessage && includes "Unsupported MIME type" nestedMessage
            then fileTypeMessage (mimeTypeOf nestedMessage)
            else unsupportedFormatMessage
        (* undefined, null, false, 0: falsy, the [&&] stops.  true, a
           non-zero number, an object: [.includes] is not a function, the
           TypeError is caught.  An array: [.includes] answers, then
           [.split] is not a function, caught as well. *)
        | Some (JNull | JBool _ | JNumber _ | JArray _ | JObject _) | None =>
            unsupportedFormatMessage
        end
    | None => unsupportedFormatMessage
    end
  else context +:+ ". " +:+ rawMessage.

(** ** App.tsx: the handlers *)

Definition handleModelFinalized (url : string) (st : State) : State :=
  st |> setModelImageUrl (Some url)
     |> setOutfitHistory [ {| garment := None; poseImages := [(poseKey 0, url)] |} ]
     |> setCurrentOutfitIndex 0.

(** [Date.now()] is [now], rendered in decimal by the template string;
    [new Date().toISOString()] is [isoNow]; [storageOk] tells whether
    [localStorage.setItem] returned normally. *)
Definition handleSaveOutfit (now : Z) (isoNow : string) (storageOk : bool)
    (st : State) : State :=
  match displayImageUrl st with
  | Some thumbnail =>
      if negb (truthy thumbnail) || (length (activeOutfitLayers st) <=? 1)%nat
      then st
      else
        let newSavedOutfit :=
          {| outfit_id := "outfit-" +:+ pretty now;
             thumbnailUrl := thumbnail;
             layers := activeOutfitLayers st;
             createdAt := isoNow |} in
        let st1 := setSavedOutfits (newSavedOutfit :: savedOutfits st) st in
        let st2 :=
          if storageOk then st1
          else setError
                 (Some "Could not save outfit. Your browser's storage might be full.")
                 st1 in
        setActiveTab gallery st2
  | None => st
  end.

Definition handleDeleteOutfit (outfitId : string) (storageOk : bool)
    (st : State) : State :=
  let updatedOutfits :=
    List.filter (fun outfit => negb (String.eqb (outfit_id outfit) outfitId))
                (savedOutfits st) in
  let st1 := setSavedOutfits updatedOutfits st in
  if storageOk then st1
  else setError (Some "Could not delete outfit. Please try again.") st1.

(** [nextLayer && nextLayer.garment?.id === garmentInfo.id] *)
Definition isRedoOf (garmentInfo : WardrobeItem) (nextLayer : option OutfitLayer)
  : bool :=
  match nextLayer with
  | Some layer =>
      match garment layer with
      | Some g => String.eqb (item_id g) (item_id garmentInfo)
      | None => false
      end
  | None => false
  end.

Definition handleGarmentSelect_begin (garmentFile : File)
    (garmentInfo : WardrobeItem) (st : State) : Outcome :=
  match displayImageUrl st with
  | Some url =>
      if negb (truthy url) || isLoading st then Returned st
      else if isRedoOf garmentInfo (outfitHistory st !! S (currentOutfitIndex st))
      then Returned (st |> setCurrentOutfitIndex (S (currentOutfitIndex st))
                        |> setCurrentPoseIndex 0)
      else
        Awaiting
          (st |> setError None |> setIsLoading true
              |> setLoadingMessage ("Adding " +:+ item_name garmentInfo +:+ "..."))
          (generateVirtualTryOnImage url garmentFile)
          (PGarmentSelect (currentOutfitIndex st) (currentPoseIndex st) garmentInfo)
  | None => Returned st
  end.

Definition handleRemoveLastGarment (st : State) : State :=
  if (0 <? currentOutfitIndex st)%nat
  then st |> setCurrentOutfitIndex (currentOutfitIndex st - 1)
          |> setCurrentPoseIndex 0
  else st.

Definition handlePoseSelect_begin (newIndex : nat) (st : State) : Outcome :=
  if isLoading st || (length (outfitHistory st) =? 0)%nat
     || (newIndex =? currentPoseIndex st)%nat
  then Returned st
  else
    let poseInstruction := poseKey newIndex in
    match outfitHistory st !! currentOutfitIndex st with
    | None => Threw
    | Some currentLayer =>
        if truthy_opt (pi_get poseInstruction (poseImages currentLayer))
        then Returned (setCurrentPoseIndex newIndex st)
        else
          match firstValue (poseImages currentLayer) with
          | Some baseImage =>
              if truthy baseImage then
                Awaiting
                  (st |> setError None |> setIsLoading true
                      |> setLoadingMessage "Changing pose..."
                      |> setCurrentPoseIndex newIndex)
                  (generatePoseVariation baseImage poseInstruction)
                  (PPoseSelect (currentOutfitIndex st) (currentPoseIndex st)
                               poseInstruction)
              else Returned st
          | None => Returned st
          end
    end.

Definition handleRegenerateImage_begin (st : State) : Outcome :=
  if isLoading st || (currentOutfitIndex st =? 0)%nat then Returned st
  else
    match outfitHistory st !! currentOutfitIndex st with
    | None => Threw
    | Some currentLayer =>
        match garment currentLayer with
        | None => Returned st
        | Some garmentInfo =>
            match outfitHistory st !! (currentOutfitIndex st - 1) with
            | None => Threw
            | Some previousLayer =>
                match firstValue (poseImages previousLayer) with
                | Some baseModelImage =>
                    if truthy baseModelImage then
                      Awaiting
                        (st |> setError None |> setIsLoading true
                            |> setLoadingMessage
                                 ("Regenerating " +:+ item_name garmentInfo +:+ "..."))
                        (regenerateFromUrl (item_url garmentInfo)
                           (item_name garmentInfo) baseModelImage)
                        (PRegenerate (currentOutfitIndex st) (currentPoseIndex st))
                    else Returned st
                | None => Returned st
                end
            end
        end
    end.

Definition handleChangeColor_begin (newColor : string) (st : State) : Outcome :=
  if isLoading st || (currentOutfitIndex st =? 0)%nat then Returned st
  else
    match outfitHistory st !! currentOutfitIndex st with
    | None => Threw
    | Some currentLayer =>
        match garment currentLayer with
        | None => Returned st
        | Some garmentInfo =>
            match firstValue (poseImages currentLayer) with
            | Some baseImage =>
                if truthy baseImage then
                  Awaiting
                    (st |> setError None |> setIsLoading true
                        |> setLoadingMessage
                             ("Changing color to " +:+ newColor +:+ "..."))
                    (changeGarmentColor baseImage (item_name garmentInfo) newColor)
                    (PChangeColor (currentOutfitIndex st) (currentPoseIndex st)
                                  garmentInfo)
                else Returned st
            | None => Returned st
            end
        end
    end.

(** The [finally] block shared by the four async handlers. *)
Definition finally (st : State) : State :=
  st |> setIsLoading false |> setLoadingMessage "".

(** [prev.find(item => item.id === garmentInfo.id) ? prev : [...prev, garmentInfo]] *)
Definition addToWardrobe (garmentInfo : WardrobeItem) (prev : list WardrobeItem)
  : list WardrobeItem :=
  if existsb (fun item => String.eqb (item_id item) (item_id garmentInfo)) prev
  then prev else prev ++ [garmentInfo].

(** The continuation of an async handler, run on the state [st] of the
    moment its promise settles.  [None]: the history updater reads
    [poseImages] of a layer that the history of that moment does not have
    and faults, or writes past the end of the array and leaves holes in
    it, which a list of layers cannot express; [settle_invariant] and
    [run_invariant] show that this does not happen in a session. *)
Definition settle (k : Pending) (r : Settled) (st : State) : option State :=
  match k, r with
  | PGarmentSelect outfitIndex poseIndex garmentInfo, Fulfilled newImageUrl =>
      let newLayer :=
        {| garment := Some garmentInfo;
           poseImages := [(poseKey poseIndex, newImageUrl)] |} in
      Some (st |> setOutfitHistory
                    (take (S outfitIndex) (outfitHistory st) ++ [newLayer])
               |> setCurrentOutfitIndex (S (currentOutfitIndex st))
               |> setWardrobe (addToWardrobe garmentInfo (wardrobe st))
               |> finally)
  | PGarmentSelect _ _ _, Rejected err =>
      Some (st |> setError
                    (Some (getFriendlyErrorMessage err "Failed to apply garment"))
               |> finally)
  | PPoseSelect outfitIndex _ poseInstruction, Fulfilled newImageUrl =>
      match outfitHistory st !! outfitIndex with
      | Some layer =>
          let updatedLayer :=
            {| garment := garment layer;
               poseImages := pi_set poseInstruction newImageUrl (poseImages layer) |} in
          Some (st |> setOutfitHistory (<[outfitIndex := updatedLayer]> (outfitHistory st))
                   |> finally)
      | None => None
      end
  | PPoseSelect _ prevPoseIndex _, Rejected err =>
      Some (st |> setError
                    (Some (getFriendlyErrorMessage err "Failed to change pose"))
               |> setCurrentPoseIndex prevPoseIndex
               |> finally)
  | PRegenerate outfitIndex poseIndex, Fulfilled newImageUrl =>
      match outfitHistory st !! outfitIndex with
      | Some layer =>
          let updatedLayer :=
            {| garment := garment layer;
               poseImages := pi_set (poseKey poseIndex) newImageUrl (poseImages layer) |} in
          Some (st |> setOutfitHistory (<[outfitIndex := updatedLayer]> (outfitHistory st))
                   |> finally)
      | None => None
      end
  | PRegenerate _ _, Rejected err =>
      Some (st |> setError
                    (Some (getFriendlyErrorMessage err "Failed to regenerate image"))
               |> finally)
  | PChangeColor outfitIndex poseIndex garmentInfo, Fulfilled newImageUrl =>
      let newLayer :=
        {| garment := Some garmentInfo;
           poseImages := [(poseKey poseIndex, newImageUrl)] |} in
      if (outfitIndex <? length (outfitHistory st))%nat
      then Some (st |> setOutfitHistory (<[outfitIndex := newLayer]> (outfitHistory st))
                    |> finally)
      else if (outfitIndex =? length (outfitHistory st))%nat
      then Some (st |> setOutfitHistory (outfitHistory st ++ [newLayer]) |> finally)
      else None
  | PChangeColor _ _ _, Rejected err =>
      Some (st |> setError
                    (Some (getFriendlyErrorMessage err "Failed to change color"))
               |> finally)
  end.

(** A handler run without interruption: its prefix on [st], then, if it
    awaits, its continuation on the state the prefix left, with the
    promise settling as [r].  A prefix that throws rejects the handler's
    own promise and leaves the state as it was. *)
Definition complete (st : State) (o : Outcome) (r : Settled) : option State :=
  match o with
  | Returned st' => Some st'
  | Threw => Some st
  | Awaiting st' _ k => settle k r st'
  end.

Definition handleGarmentSelect (garmentFile : File) (garmentInfo : WardrobeItem)
    (r : Settled) (st : State) : option State :=
  complete st (handleGarmentSelect_begin garmentFile garmentInfo st) r.

Definition handlePoseSelect (newIndex : nat) (r : Settled) (st : State)
  : option State :=
  complete st (handlePoseSelect_begin newIndex st) r.

Definition handleRegenerateImage (r : Settled) (st : State) : option State :=
  complete st (handleRegenerateImage_begin st) r.

Definition handleChangeColor (newColor : string) (r : Settled) (st : State)
  : option State :=
  complete st (handleChangeColor_begin newColor st) r.

End Store.

(** ** The store as a transition system *)

(** The component state together with the calls in flight, oldest first. *)
Record Sys := {
  store : State;
  inflight : list Pending }.

(** What can happen to the editor once a model photo is finalized: a user
    action, or the settling of a call in flight. *)
Inductive Event :=
| GarmentSelect (garmentFile : File) (garmentInfo : WardrobeItem)
| RemoveLastGarment
| PoseSelect (newIndex : nat)
| RegenerateImage
| ChangeColor (newColor : string)
| SaveOutfit (now : Z) (isoNow : string) (storageOk : bool)
| DeleteOutfit (outfitId : string) (storageOk : bool)
| Settle (n : nat) (r : Settled).

Definition withStore (sys : Sys) (st : State) : Sys :=
  {| store := st; inflight := inflight sys |}.

Definition launch (sys : Sys) (o : Outcome) : Sys :=
  match o with
  | Returned st => withStore sys st
  | Threw => sys
  | Awaiting st _ k => {| store := st; inflight := inflight sys ++ [k] |}
  end.

Section Run.

Variable JSON_parse : string → option Json.

Definition step (ev : Event) (sys : Sys) : option Sys :=
  match ev with
  | GarmentSelect garmentFile garmentInfo =>
      Some (launch sys (handleGarmentSelect_begin garmentFile garmentInfo (store sys)))
  | RemoveLastGarment => Some (withStore sys (handleRemoveLastGarment (store sys)))
  | PoseSelect newIndex => Some (launch sys (handlePoseSelect_begin newIndex (store sys)))
  | RegenerateImage => Some (launch sys (handleRegenerateImage_begin (store sys)))
  | ChangeColor newColor => Some (launch sys (handleChangeColor_begin newColor (store sys)))
  | SaveOutfit now isoNow storageOk =>
      Some (withStore sys (handleSaveOutfit now isoNow storageOk (store sys)))
  | DeleteOutfit outfitId storageOk =>
      Some (withStore sys (handleDeleteOutfit outfitId storageOk (store sys)))
  | Settle n r =>
      match inflight sys !! n with
      | None => Some sys
      | Some k =>
          st' ← settle JSON_parse k r (store sys);
          Some {| store := st'; inflight := delete n (inflight sys) |}
      end
  end.

Fixpoint run (evs : list Event) (sys : Sys) : option Sys :=
  match evs with
  | [] => Some sys
  | ev :: evs' => step ev sys ≫= run evs'
  end.

End Run.

(** The session right after [finalizeModel], nothing in flight. *)
Definition finalized (url : string) (st : State) : Sys :=
  {| store := handleModelFinalized url st; inflight := [] |}.

(** The invariant of the outfit history and its index. *)
Definition historyInvariant (st : State) : Prop :=
  outfitHistory st ≠ []
  ∧ (∀ base, outfitHistory st !! 0%nat = Some base → garment base = None)
  ∧ (∀ i layer, 0 < i → outfitHistory st !! i = Some layer →
       is_Some (garment layer))
  ∧ currentOutfitIndex st < length (outfitHistory st).

(** ** A worked session *)

(** wardrobe.ts *)
Definition sweat : WardrobeItem :=
  {| item_id := "gemini-sweat";
     item_name := "Dave's crush";
     item_url := "https://raw.githubusercontent.com/davekg8/Virtual-try-on/refs/heads/main/image/Generated%20Image%20September%2025%2C%202025%20-%2011_39AM.png" |}.

Definition tee : WardrobeItem :=
  {| item_id := "gemini-tee";
     item_name := "Love you bibou";
     item_url := "https://raw.githubusercontent.com/davekg8/Virtual-try-on/refs/heads/main/image/Generated%20Image%20September%2025%2C%202025%20-%2011_45AM.png" |}.

Definition defaultWardrobe : list WardrobeItem := [sweat; tee].

(** A double quote, and a service error wrapped in JSON. *)
Definition dq : string := String (Ascii.ascii_of_nat 34) EmptyString.

Definition wrappedMimeError : string :=
  "{" +:+ dq +:+ "error" +:+ dq +:+ ":{" +:+ dq +:+ "message" +:+ dq +:+ ":"
  +:+ dq +:+ "Unsupported MIME type: image/gif" +:+ dq +:+ "}}".

(** A stand-in for [JSON.parse] that reads this one document. *)
Definition parseKnown (s : string) : option Json :=
  if String.eqb s wrappedMimeError
  then Some (JObject
               [("error",
                 JObject [("message", JString "Unsupported MIME type: image/gif")])])
  else None.

(** Model photo finalized; the sweater applied; pose 1 rendered for it. *)
Definition session0 : State :=
  handleModelFinalized "m.png" (initialState defaultWardrobe).

Definition session1 : State :=
  default session0
    (handleGarmentSelect parseKnown "sweat-file" sweat (Fulfilled "g1.png") session0).

Definition session2 : State :=
  default session1 (handlePoseSelect parseKnown 1 (Fulfilled "g1-p1.png") session1).

(** The tee applied on top, at pose 1; then removed; then applied again,
    which redoes the layer that was kept. *)
Definition session3 : State :=
  default session2
    (handleGarmentSelect parseKnown "tee-file" tee (Fulfilled "g2.png") session2).

Definition session4 : State := handleRemoveLastGarment session3.

Definition session5 : State :=
  default session4
    (handleGarmentSelect parseKnown "tee-file" tee (Fulfilled "unused.png") session4).

(** The same session caught with a colour change in flight. *)
Definition busySession : State :=
  match handleChangeColor_begin "Red" session2 with
  | Awaiting st _ _ => st
  | _ => session2
  end.

(** The sweater outfit saved twice at one reading of the clock. *)
Definition savedOnce : State :=
  handleSaveOutfit 1761998400000 "2025-11-01T12:00:00.000Z" true session2.

Definition savedTwice : State :=
  handleSaveOutfit 1761998400000 "2025-11-01T12:00:00.000Z" true savedOnce.

(** ** Vocabulary of the statements *)

(** The [context] arguments of the four call sites of
    [getFriendlyErrorMessage]. *)
Definition callSiteContexts : list string :=
  [ "Failed to apply garment"; "Failed to change pose";
    "Failed to regenerate image"; "Failed to change color" ].

(** A handler prefix [o] that awaits has set the busy flag, and its
    continuation, however the call settles, ends with the flag cleared. *)
Definition releasesBusyFlag (JSON_parse : string → option Json) (o : Outcome)
  : Prop :=
  ∀ st1 request k, o = Awaiting st1 request k →
    isLoading st1 = true
    ∧ ∀ r, ∃ st', settle JSON_parse k r st1 = Some st' ∧ isLoading st' = false.


(** The shape of a well-formed history: a base layer without garment,
    then layers that each carry one. *)
Definition historyShape (history : list OutfitLayer) : Prop :=
  match history with
  | [] => False
  | base :: rest =>
      garment base = None ∧ Forall (λ layer, is_Some (garment layer)) rest
  end.

(** The layer index a continuation captured. *)
Definition pendingIndex (k : Pending) : nat :=
  match k with
  | PGarmentSelect i _ _ | PPoseSelect i _ _ | PRegenerate i _
  | PChangeColor i _ _ => i
  end.

(** A call in flight is consistent with the store: the layer it captured
    exists, the index has not moved past it, and a colour change was not
    started on the base layer. *)
Definition pendingOk (st : State) (k : Pending) : Prop :=
  currentOutfitIndex st ≤ pendingIndex k
  ∧ pendingIndex k < length (outfitHistory st)
  ∧ match k with PChangeColor i _ _ => 0 < i | _ => True end.

(** What a handler prefix guarantees about its outcome on [st]. *)
Definition outcomeOk (st : State) (o : Outcome) : Prop :=
  match o with
  | Returned st' =>
      outfitHistory st' = outfitHistory st ∧ isLoading st' = isLoading st
      ∧ (currentOutfitIndex st' = currentOutfitIndex st
         ∨ (isLoading st = false
            ∧ currentOutfitIndex st' < length (outfitHistory st)))
  | Threw => True
  | Awaiting st1 _ k =>
      isLoading st = false ∧ isLoading st1 = true
      ∧ outfitHistory st1 = outfitHistory st
      ∧ currentOutfitIndex st1 = currentOutfitIndex st
      ∧ pendingOk st1 k
  end.

(** The invariant of the transition system: the history invariant, at
    most one call in flight, consistent with the store, and the busy flag
    set while it is. *)
Definition sysInvariant (sys : Sys) : Prop :=
  historyInvariant (store sys)
  ∧ Forall (pendingOk (store sys)) (inflight sys)
  ∧ (length (inflight sys) ≤ 1)%nat
  ∧ (inflight sys ≠ [] → isLoading (store sys) = true).

(** ** App.tsx and OutfitStack.tsx: remaining derived values and handlers *)

(** [activeOutfitLayers.map(layer => layer.garment?.id).filter(Boolean)] *)
Definition activeGarmentIds (st : State) : list string :=
  omap id
    (List.filter truthy_opt
       ((λ layer, item_id <$> garment layer) <$> activeOutfitLayers st)).

Definition availablePoseKeys (st : State) : list string :=
  match outfitHistory st with
  | [] => []
  | _ :: _ =>
      match outfitHistory st !! currentOutfitIndex st with
      | Some currentLayer => (poseImages currentLayer).*1
      | None => []
      end
  end.

Definition canRegenerate (st : State) : bool := 0 <? currentOutfitIndex st.

(** [handleStartOver] also folds the mobile sheet back out
    ([setIsSheetCollapsed(false)]), a presentation flag that [State] does
    not carry. *)
Definition handleStartOver (st : State) : State :=
  st |> setModelImageUrl None
     |> setOutfitHistory []
     |> setCurrentOutfitIndex 0
     |> setIsLoading false
     |> setLoadingMessage ""
     |> setError None
     |> setCurrentPoseIndex 0
     |> setWardrobe defaultWardrobe
     |> setActiveTab editor.

(** OutfitStack.tsx, which receives [activeOutfitLayers] as its
    [outfitHistory]: the Save button is enabled when [canSave]; the
    palette and the remove button are rendered on the row for which
    [isLastItem].  The rows exist only for indices of the list, where
    [length - 1] does not go below zero. *)
Definition canSave (outfitHistory : list OutfitLayer) : bool :=
  1 <? length outfitHistory.

Definition isLastItem (outfitHistory : list OutfitLayer) (index : nat) : bool :=
  (0 <? index) && (index =? length outfitHistory - 1).

(** Every layer of the history has at least one cached render. *)
Definition layersRendered (st : State) : Prop :=
  Forall (λ layer, poseImages layer ≠ []) (outfitHistory st).

(** A handler prefix [o] started on [st]: if it awaits and its call is
    rejected, the continuation leaves history, indices, wardrobe and
    gallery as they were on [st], clears the busy flag and reports the
    translated error under [context]. *)
Definition failureKeepsStore (JSON_parse : string → option Json) (st : State)
    (context : string) (o : Outcome) : Prop :=
  ∀ st1 request k err, o = Awaiting st1 request k →
    ∃ st', settle JSON_parse k (Rejected err) st1 = Some st'
      ∧ outfitHistory st' = outfitHistory st
      ∧ currentOutfitIndex st' = currentOutfitIndex st
      ∧ currentPoseIndex st' = currentPoseIndex st
      ∧ wardrobe st' = wardrobe st
      ∧ savedOutfits st' = savedOutfits st
      ∧ isLoading st' = false
      ∧ error st' = Some (getFriendlyErrorMessage JSON_parse err context).

(** * Properties *)

Section StoreFacts.

Variable JSON_parse : string → option Json.

Local Abbreviation settle := (settle JSON_parse).
Local Abbreviation handleGarmentSelect := (handleGarmentSelect JSON_parse).
Local Abbreviation handlePoseSelect := (handlePoseSelect JSON_parse).
Local Abbreviation handleRegenerateImage := (handleRegenerateImage JSON_parse).
Local Abbreviation handleChangeColor := (handleChangeColor JSON_parse).

(** ** Applying a garment *)

Lemma isRedoOf_true garmentInfo nextLayer :
  isRedoOf garmentInfo nextLayer = true ↔
  ∃ layer g, nextLayer = Some layer ∧ garment layer = Some g
             ∧ item_id g = item_id garmentInfo.
Proof.
  unfold isRedoOf. split.
  - destruct nextLayer as [layer|]; [|done].
    destruct (garment layer) as [g|] eqn:Hg; [|done].
    intros Heq%String.eqb_eq. eauto.
  - intros (layer & g & -> & -> & Hid). by apply String.eqb_eq.
Qed.

(** The guard of [handleGarmentSelect]: something is displayed and no call
    is in flight. *)
Lemma handleGarmentSelect_begin_admitted garmentFile garmentInfo st url :
  isLoading st = false → displayImageUrl st = Some url → truthy url = true →
  handleGarmentSelect_begin garmentFile garmentInfo st =
    if isRedoOf garmentInfo (outfitHistory st !! S (currentOutfitIndex st))
    then Returned (st |> setCurrentOutfitIndex (S (currentOutfitIndex st))
                      |> setCurrentPoseIndex 0)
    else Awaiting
           (st |> setError None |> setIsLoading true
               |> setLoadingMessage ("Adding " +:+ item_name garmentInfo +:+ "..."))
           (generateVirtualTryOnImage url garmentFile)
           (PGarmentSelect (currentOutfitIndex st) (currentPoseIndex st) garmentInfo).
Proof.
  intros Hbusy Hurl Htruthy. unfold handleGarmentSelect_begin.
  by rewrite Hurl, Htruthy, Hbusy.
Qed.

(** C1, as amended: when the editor is idle and shows an image, applying
    a garment that is not the redo of the layer at [i+1] issues one
    try-on call and, when that call succeeds, leaves the history
    [H[0..i]] followed by exactly one new layer (the applied garment, the
    new image cached under the current pose only), the index at [i+1],
    the busy flag cleared, and the pose index as it was. *)
Theorem handleGarmentSelect_new_garment garmentFile garmentInfo newImageUrl st url :
  isLoading st = false →
  displayImageUrl st = Some url → truthy url = true →
  currentOutfitIndex st < length (outfitHistory st) →
  isRedoOf garmentInfo (outfitHistory st !! S (currentOutfitIndex st)) = false →
  ∃ st1 k st',
    handleGarmentSelect_begin garmentFile garmentInfo st
      = Awaiting st1 (generateVirtualTryOnImage url garmentFile) k
    ∧ handleGarmentSelect garmentFile garmentInfo (Fulfilled newImageUrl) st = Some st'
    ∧ outfitHistory st' =
        (take (S (currentOutfitIndex st)) (outfitHistory st)
         ++ [ {| garment := Some garmentInfo;
                 poseImages := [(poseKey (currentPoseIndex st), newImageUrl)] |} ])%list
    ∧ length (outfitHistory st') = S (S (currentOutfitIndex st))
    ∧ currentOutfitIndex st' = S (currentOutfitIndex st)
    ∧ currentPoseIndex st' = currentPoseIndex st
    ∧ isLoading st' = false.
Proof.
  intros Hbusy Hurl Htruthy Hlt Hnew.
  unfold handleGarmentSelect.
  rewrite (handleGarmentSelect_begin_admitted _ _ _ _ Hbusy Hurl Htruthy), Hnew.
  eexists _, _, _. split; [reflexivity|]. split; [reflexivity|]. simpl.
  repeat split.
  rewrite length_app, length_take, Nat.min_l by lia. simpl. lia.
Qed.

(** C2: when the editor is idle and shows an image, and the layer at
    [i+1] exists with the id of the garment being applied, the handler
    returns without issuing a call: the index advances by one and the
    history is the same list. *)
Theorem handleGarmentSelect_redo garmentFile garmentInfo st url nextLayer g :
  isLoading st = false →
  displayImageUrl st = Some url → truthy url = true →
  outfitHistory st !! S (currentOutfitIndex st) = Some nextLayer →
  garment nextLayer = Some g → item_id g = item_id garmentInfo →
  ∃ st',
    handleGarmentSelect_begin garmentFile garmentInfo st = Returned st'
    ∧ (∀ r, handleGarmentSelect garmentFile garmentInfo r st = Some st')
    ∧ currentOutfitIndex st' = S (currentOutfitIndex st)
    ∧ outfitHistory st' = outfitHistory st
    ∧ isLoading st' = false.
Proof.
  intros Hbusy Hurl Htruthy Hnext Hg Hid.
  assert (isRedoOf garmentInfo (outfitHistory st !! S (currentOutfitIndex st)) = true)
    as Hredo by (apply isRedoOf_true; eauto).
  unfold handleGarmentSelect.
  rewrite (handleGarmentSelect_begin_admitted _ _ _ _ Hbusy Hurl Htruthy), Hredo.
  eexists. split; [reflexivity|]. simpl. done.
Qed.

(** ** Removing the last garment *)

(** C7: at index 0 [handleRemoveLastGarment] changes nothing; at index
    [i > 0] it moves the index to [i-1] and the pose index to 0 and keeps
    the history, so the layer it stepped off is still at [i]: with the
    editor idle and an image shown, applying a garment of that layer's id
    returns without a call, back at index [i], on the same history. *)
Theorem handleRemoveLastGarment_spec st :
  (currentOutfitIndex st = 0 → handleRemoveLastGarment st = st)
  ∧ (0 < currentOutfitIndex st →
     let st' := handleRemoveLastGarment st in
     currentOutfitIndex st' = currentOutfitIndex st - 1
     ∧ currentPoseIndex st' = 0
     ∧ outfitHistory st' = outfitHistory st
     ∧ ∀ removed g garmentFile garmentInfo url,
         outfitHistory st !! currentOutfitIndex st = Some removed →
         garment removed = Some g → item_id garmentInfo = item_id g →
         isLoading st = false →
         displayImageUrl st' = Some url → truthy url = true →
         ∃ st'',
           handleGarmentSelect_begin garmentFile garmentInfo st' = Returned st''
           ∧ currentOutfitIndex st'' = currentOutfitIndex st
           ∧ outfitHistory st'' = outfitHistory st).
Proof.
  unfold handleRemoveLastGarment. split.
  - intros ->. done.
  - intros Hpos. destruct (Nat.ltb_spec 0 (currentOutfitIndex st)); [|lia].
    simpl. repeat split.
    intros removed g garmentFile garmentInfo url Hrem Hg Hid Hbusy Hurl Htruthy.
    set (st' := st |> setCurrentOutfitIndex (currentOutfitIndex st - 1)
                   |> setCurrentPoseIndex 0) in *.
    assert (S (currentOutfitIndex st') = currentOutfitIndex st) as Hnext
      by (simpl; lia).
    rewrite (handleGarmentSelect_begin_admitted _ _ st' url) by done.
    rewrite Hnext. change (outfitHistory st') with (outfitHistory st).
    rewrite (proj2 (isRedoOf_true garmentInfo (outfitHistory st !! currentOutfitIndex st)))
      by eauto.
    eexists. split; [reflexivity|]. simpl. split; [lia|done].
Qed.

(** ** Selecting a pose *)

(** C10: selecting the pose that is already displayed returns at once,
    whatever the active layer has cached: no call, the state untouched. *)
Theorem handlePoseSelect_same_pose st r :
  outfitHistory st ≠ [] →
  handlePoseSelect_begin (currentPoseIndex st) st = Returned st
  ∧ handlePoseSelect (currentPoseIndex st) r st = Some st.
Proof.
  intros _. unfold handlePoseSelect, handlePoseSelect_begin.
  rewrite Nat.eqb_refl, !orb_true_r. done.
Qed.

(** C5: when the active layer has no usable render cached for the pose
    asked for and the pose call is rejected, the handler ends with the
    pose index it started from and the history it started from; while the
    call was in flight the display had moved to the new pose. *)
Theorem handlePoseSelect_failure_reverts newIndex err st :
  (∀ layer, outfitHistory st !! currentOutfitIndex st = Some layer →
     truthy_opt (pi_get (poseKey newIndex) (poseImages layer)) = false) →
  (∃ st', handlePoseSelect newIndex (Rejected err) st = Some st'
     ∧ currentPoseIndex st' = currentPoseIndex st
     ∧ outfitHistory st' = outfitHistory st)
  ∧ (∀ st1 request k,
       handlePoseSelect_begin newIndex st = Awaiting st1 request k →
       currentPoseIndex st1 = newIndex).
Proof.
  intros Hnone. unfold handlePoseSelect, handlePoseSelect_begin.
  destruct (isLoading st || (length (outfitHistory st) =? 0)%nat
            || (newIndex =? currentPoseIndex st)%nat); [by split; [eexists|]|].
  destruct (outfitHistory st !! currentOutfitIndex st) as [layer|] eqn:Hlayer;
    [|by split; [eexists|]].
  rewrite (Hnone layer eq_refl).
  destruct (firstValue (poseImages layer)) as [baseImage|];
    [|by split; [eexists|]].
  destruct (truthy baseImage); [|by split; [eexists|]].
  split; [by eexists|]. by intros ??? [= <- _ _].
Qed.

(** ** Changing the colour *)

(** When [handleChangeColor] issues its call. *)
Lemma handleChangeColor_begin_awaiting newColor st st1 request k :
  handleChangeColor_begin newColor st = Awaiting st1 request k →
  ∃ layer g baseImage,
    isLoading st = false ∧ 0 < currentOutfitIndex st
    ∧ outfitHistory st !! currentOutfitIndex st = Some layer
    ∧ garment layer = Some g
    ∧ firstValue (poseImages layer) = Some baseImage ∧ truthy baseImage = true
    ∧ st1 = (st |> setError None |> setIsLoading true
                |> setLoadingMessage ("Changing color to " +:+ newColor +:+ "..."))
    ∧ request = changeGarmentColor baseImage (item_name g) newColor
    ∧ k = PChangeColor (currentOutfitIndex st) (currentPoseIndex st) g.
Proof.
  unfold handleChangeColor_begin.
  destruct (isLoading st) eqn:Hbusy; [done|].
  destruct (Nat.eqb_spec (currentOutfitIndex st) 0) as [|Hidx]; [done|]. simpl.
  destruct (outfitHistory st !! currentOutfitIndex st) as [layer|]; [|done].
  destruct (garment layer) as [g|] eqn:Hg; [|done].
  destruct (firstValue (poseImages layer)) as [baseImage|] eqn:Hbase; [|done].
  destruct (truthy baseImage) eqn:Htruthy; [|done].
  intros [= <- <- <-]. exists layer, g, baseImage. repeat split; [lia|done..].
Qed.

(** C4: at an index [i > 0], a colour change whose call was issued and
    fulfilled puts at [i] a fresh layer with the garment of the old one
    and a [poseImages] holding the new image under the current pose and
    nothing else; every other layer, the length, the index and the pose
    index are as before. *)
Theorem handleChangeColor_success newColor newImageUrl st st1 request k :
  0 < currentOutfitIndex st →
  handleChangeColor_begin newColor st = Awaiting st1 request k →
  ∃ layer g st',
    outfitHistory st !! currentOutfitIndex st = Some layer
    ∧ garment layer = Some g
    ∧ handleChangeColor newColor (Fulfilled newImageUrl) st = Some st'
    ∧ outfitHistory st' !! currentOutfitIndex st =
        Some {| garment := Some g;
                poseImages := [(poseKey (currentPoseIndex st), newImageUrl)] |}
    ∧ (∀ j, j ≠ currentOutfitIndex st →
         outfitHistory st' !! j = outfitHistory st !! j)
    ∧ length (outfitHistory st') = length (outfitHistory st)
    ∧ currentOutfitIndex st' = currentOutfitIndex st
    ∧ currentPoseIndex st' = currentPoseIndex st.
Proof.
  intros _ Hbegin. unfold handleChangeColor. rewrite Hbegin.
  apply handleChangeColor_begin_awaiting in Hbegin
    as (layer & g & baseImage & _ & _ & Hlayer & Hg & _ & _ & -> & _ & ->).
  pose proof (lookup_lt_Some _ _ _ Hlayer) as Hlt.
  exists layer, g. simpl.
  destruct (Nat.ltb_spec (currentOutfitIndex st) (length (outfitHistory st)));
    [|lia].
  eexists. repeat split; try done; simpl.
  - by apply list_lookup_insert_eq.
  - intros j Hj. by apply list_lookup_insert_ne.
  - apply length_insert.
Qed.

(** ** The busy flag *)

Lemma finally_not_loading st : isLoading (finally st) = false.
Proof. done. Qed.

(** A continuation that produces a state produces one with the flag
    cleared, whatever state it runs on and however the call settled. *)
Lemma settle_not_loading k r st st' :
  settle k r st = Some st' → isLoading st' = false.
Proof.
  destruct k, r; simpl; intros Hst;
    repeat (case_match; simplify_eq); by simplify_eq/=.
Qed.

Lemma handleGarmentSelect_releases garmentFile garmentInfo st :
  releasesBusyFlag JSON_parse (handleGarmentSelect_begin garmentFile garmentInfo st).
Proof.
  intros st1 request k. unfold handleGarmentSelect_begin.
  repeat case_match; try done. intros [= <- <- <-].
  split; [done|]. intros [newImageUrl|err]; by eexists.
Qed.

Lemma handlePoseSelect_releases newIndex st :
  releasesBusyFlag JSON_parse (handlePoseSelect_begin newIndex st).
Proof.
  intros st1 request k. unfold handlePoseSelect_begin.
  repeat case_match; try done. intros [= <- <- <-].
  split; [done|]. intros [newImageUrl|err]; simpl; [|by eexists].
  match goal with H : outfitHistory st !! _ = Some _ |- _ => rewrite H end.
  by eexists.
Qed.

Lemma handleRegenerateImage_releases st :
  releasesBusyFlag JSON_parse (handleRegenerateImage_begin st).
Proof.
  intros st1 request k. unfold handleRegenerateImage_begin.
  repeat case_match; try done. intros [= <- <- <-].
  split; [done|]. intros [newImageUrl|err]; simpl; [|by eexists].
  match goal with
  | H : outfitHistory st !! currentOutfitIndex st = Some _ |- _ => rewrite H
  end.
  by eexists.
Qed.

Lemma handleChangeColor_releases newColor st :
  releasesBusyFlag JSON_parse (handleChangeColor_begin newColor st).
Proof.
  intros st1 request k Hbegin.
  apply handleChangeColor_begin_awaiting in Hbegin
    as (layer & g & baseImage & _ & _ & Hlayer%lookup_lt_Some & _ & _ & _ & -> & _ & ->).
  split; [done|]. intros [newImageUrl|err]; simpl; [|by eexists].
  destruct (Nat.ltb_spec (currentOutfitIndex st) (length (outfitHistory st)));
    [by eexists|lia].
Qed.

(** C3, as amended: with the busy flag set, each of the four handlers
    that call the image service returns at once, issuing nothing and
    leaving the whole state as it is; and each of them, once it has set
    the flag, clears it again whether its call is fulfilled or rejected. *)
Theorem busy_flag_gates_async_handlers st :
  (isLoading st = true →
     (∀ garmentFile garmentInfo r,
        handleGarmentSelect_begin garmentFile garmentInfo st = Returned st
        ∧ handleGarmentSelect garmentFile garmentInfo r st = Some st)
     ∧ (∀ newIndex r,
          handlePoseSelect_begin newIndex st = Returned st
          ∧ handlePoseSelect newIndex r st = Some st)
     ∧ (∀ r, handleRegenerateImage_begin st = Returned st
             ∧ handleRegenerateImage r st = Some st)
     ∧ (∀ newColor r,
          handleChangeColor_begin newColor st = Returned st
          ∧ handleChangeColor newColor r st = Some st))
  ∧ (∀ garmentFile garmentInfo,
       releasesBusyFlag JSON_parse (handleGarmentSelect_begin garmentFile garmentInfo st))
  ∧ (∀ newIndex, releasesBusyFlag JSON_parse (handlePoseSelect_begin newIndex st))
  ∧ releasesBusyFlag JSON_parse (handleRegenerateImage_begin st)
  ∧ (∀ newColor, releasesBusyFlag JSON_parse (handleChangeColor_begin newColor st)).
Proof.
  split; [|auto using handleGarmentSelect_releases, handlePoseSelect_releases,
             handleRegenerateImage_releases, handleChangeColor_releases].
  intros Hbusy.
  unfold handleGarmentSelect, handlePoseSelect, handleRegenerateImage,
    handleChangeColor, handleGarmentSelect_begin, handlePoseSelect_begin,
    handleRegenerateImage_begin, handleChangeColor_begin.
  rewrite Hbusy. simpl. repeat split.
  - destruct (displayImageUrl st); [by rewrite orb_true_r|done].
  - destruct (displayImageUrl st); [by rewrite orb_true_r|done].
Qed.

(** ** The saved-outfit gallery *)

Lemma outfit_id_of_clock_inj (t1 t2 : Z) :
  "outfit-" +:+ pretty t1 = "outfit-" +:+ pretty t2 → t1 = t2.
Proof. simpl. intros [= Heq]. by apply (inj pretty). Qed.

(** C6, as amended: with at most one active layer [handleSaveOutfit]
    leaves the state, gallery included, as it is; with two or more and a
    thumbnail to show it puts in front of the gallery one new entry with
    that thumbnail, the active layers and the id [outfit-<clock>], which
    differs from the id of every entry saved at another reading of the
    clock, so that a gallery of distinct ids none of which is the new one
    stays a gallery of distinct ids. *)
Theorem handleSaveOutfit_spec now isoNow storageOk st :
  ((length (activeOutfitLayers st) ≤ 1)%nat →
     handleSaveOutfit now isoNow storageOk st = st)
  ∧ (∀ thumbnail,
       (2 ≤ length (activeOutfitLayers st))%nat →
       displayImageUrl st = Some thumbnail → truthy thumbnail = true →
       let st' := handleSaveOutfit now isoNow storageOk st in
       ∃ newSavedOutfit,
         savedOutfits st' = newSavedOutfit :: savedOutfits st
         ∧ outfit_id newSavedOutfit = "outfit-" +:+ pretty now
         ∧ thumbnailUrl newSavedOutfit = thumbnail
         ∧ layers newSavedOutfit = activeOutfitLayers st
         ∧ (∀ old t, old ∈ savedOutfits st →
              outfit_id old = "outfit-" +:+ pretty t → t ≠ now →
              outfit_id old ≠ outfit_id newSavedOutfit)
         ∧ (NoDup (outfit_id <$> savedOutfits st) →
            (∀ old, old ∈ savedOutfits st →
               outfit_id old ≠ "outfit-" +:+ pretty now) →
            NoDup (outfit_id <$> savedOutfits st'))).
Proof.
  unfold handleSaveOutfit. split.
  - intros Hle. destruct (displayImageUrl st) as [thumbnail|]; [|done].
    destruct (Nat.leb_spec (length (activeOutfitLayers st)) 1); [|lia].
    by rewrite orb_true_r.
  - intros thumbnail Hge -> ->.
    destruct (Nat.leb_spec (length (activeOutfitLayers st)) 1); [lia|]. simpl.
    eexists. split; [by destruct storageOk|]. simpl.
    repeat split.
    + intros old t _ -> Hne Heq. by apply Hne, outfit_id_of_clock_inj.
    + intros Hnodup Hfresh.
      replace (savedOutfits _) with
        ({| outfit_id := "outfit-" +:+ pretty now; thumbnailUrl := thumbnail;
            layers := activeOutfitLayers st; createdAt := isoNow |}
         :: savedOutfits st) by (by destruct storageOk).
      rewrite fmap_cons. apply NoDup_cons. split; [|done].
      intros (old & Hid & Hold)%list_elem_of_fmap. by apply (Hfresh old).
Qed.

(** ** Error translation *)

Lemma includes_nonempty needle s :
  truthy needle = true → includes needle s = true → truthy s = true.
Proof. by destruct needle, s. Qed.

(** C9: an error whose raw message lacks ["Unsupported MIME type"] is
    rendered as the context, a period, a space and the raw message.  One
    whose raw message has it is rendered as one of the two unsupported-
    file messages: the one naming the MIME type when the raw message
    parses as JSON whose [error.message] is a string with the same
    marker, the MIME type being what follows the first [": "] of that
    string; the general one when the raw message is not JSON.  With the
    contexts the handlers pass, an unsupported-file message is returned
    only for a raw message that has the marker. *)
Theorem getFriendlyErrorMessage_spec err context :
  let rawMessage := rawMessageOf err in
  let result := getFriendlyErrorMessage JSON_parse err context in
  (includes "Unsupported MIME type" rawMessage = false →
     result = context +:+ ". " +:+ rawMessage)
  ∧ (includes "Unsupported MIME type" rawMessage = true →
       (result = unsupportedFormatMessage
        ∨ ∃ mimeType, result = fileTypeMessage mimeType)
       ∧ (∀ errorJson errorObj nestedMessage,
            JSON_parse rawMessage = Some errorJson →
            getProp "error" errorJson = Some errorObj →
            getProp "message" errorObj = Some (JString nestedMessage) →
            includes "Unsupported MIME type" nestedMessage = true →
            result = fileTypeMessage (mimeTypeOf nestedMessage))
       ∧ (JSON_parse rawMessage = None → result = unsupportedFormatMessage))
  ∧ (context ∈ callSiteContexts →
       (result = unsupportedFormatMessage
        ∨ ∃ mimeType, result = fileTypeMessage mimeType) →
       includes "Unsupported MIME type" rawMessage = true).
Proof.
  intros rawMessage result. subst result. unfold getFriendlyErrorMessage.
  fold rawMessage.
  destruct (includes "Unsupported MIME type" rawMessage) eqn:Hraw.
  - split; [done|]. split; [|done]. intros _. split; [|split].
    + repeat case_match; eauto.
    + intros errorJson errorObj nestedMessage -> -> Hmsg Hnested. simpl.
      rewrite Hmsg, Hnested.
      by rewrite (includes_nonempty "Unsupported MIME type" nestedMessage).
    + by intros ->.
  - split; [done|]. split; [done|].
    intros Hctx Hresult. exfalso.
    unfold callSiteContexts in Hctx.
    repeat (apply elem_of_cons in Hctx as [->|Hctx]);
      [..|by apply elem_of_nil in Hctx];
      destruct Hresult as [Heq|[mimeType Heq]]; discriminate Heq.
Qed.

(** ** The history invariant *)

Lemma historyInvariant_shape st :
  historyInvariant st ↔
  historyShape (outfitHistory st)
  ∧ currentOutfitIndex st < length (outfitHistory st).
Proof.
  unfold historyInvariant, historyShape.
  destruct (outfitHistory st) as [|base rest].
  { split; [by intros [? _]|by intros [[] _]]. }
  split.
  - intros (_ & Hbase & Hrest & Hidx).
    split; [split|done]; [by apply Hbase|].
    apply Forall_lookup_2. intros i layer Hi. by apply (Hrest (S i)); [lia|].
  - intros ((Hbase & Hrest) & Hidx).
    split; [done|]. split; [by intros ? [= <-]|]. split; [|done].
    intros [|i] layer Hpos Hi; [lia|].
    by apply (Forall_lookup_1 _ _ _ _ Hrest Hi).
Qed.

Lemma historyShape_take_snoc history i newLayer :
  historyShape history → is_Some (garment newLayer) →
  historyShape (take (S i) history ++ [newLayer]).
Proof.
  destruct history as [|base rest]; [done|]. simpl.
  intros [Hbase Hrest] Hnew. split; [done|].
  apply Forall_app. split; [by apply Forall_take|by apply Forall_singleton].
Qed.

Lemma historyShape_insert_same history i layer updatedLayer :
  historyShape history → history !! i = Some layer →
  garment updatedLayer = garment layer →
  historyShape (<[i := updatedLayer]> history).
Proof.
  destruct history as [|base rest]; [done|].
  intros [Hbase Hrest] Hi Hg. destruct i as [|i]; simpl in *.
  - simplify_eq. split; [congruence|done].
  - split; [done|]. apply Forall_insert; [done|].
    rewrite Hg. by apply (Forall_lookup_1 _ _ _ _ Hrest Hi).
Qed.

Lemma historyShape_insert_garment history i newLayer :
  historyShape history → 0 < i → is_Some (garment newLayer) →
  historyShape (<[i := newLayer]> history).
Proof.
  destruct history as [|base rest]; [done|].
  intros [Hbase Hrest] Hpos Hnew. destruct i as [|i]; [lia|]. simpl.
  split; [done|]. by apply Forall_insert.
Qed.

Lemma handleModelFinalized_invariant url st :
  historyInvariant (handleModelFinalized url st).
Proof. apply historyInvariant_shape. simpl. repeat split; [done|lia]. Qed.

Lemma outcomeOk_unchanged st : outcomeOk st (Returned st).
Proof. simpl. auto. Qed.

Lemma outcomeOk_same_layer st st' :
  outfitHistory st' = outfitHistory st → isLoading st' = isLoading st →
  currentOutfitIndex st' = currentOutfitIndex st →
  outcomeOk st (Returned st').
Proof. simpl. auto. Qed.

Local Hint Resolve outcomeOk_unchanged outcomeOk_same_layer : core.

Lemma handleGarmentSelect_begin_ok garmentFile garmentInfo st :
  historyInvariant st →
  outcomeOk st (handleGarmentSelect_begin garmentFile garmentInfo st).
Proof.
  intros (_ & Hidx)%historyInvariant_shape. unfold handleGarmentSelect_begin.
  destruct (displayImageUrl st) as [url|]; [|done].
  destruct (truthy url); [|done].
  destruct (isLoading st) eqn:Hbusy; [done|]. simpl.
  destruct (isRedoOf _ _) eqn:Hredo.
  - apply isRedoOf_true in Hredo as (layer & _ & Hnext%lookup_lt_Some & _).
    simpl. auto 6.
  - simpl. repeat split; try done; simpl; lia.
Qed.

Lemma handlePoseSelect_begin_ok newIndex st :
  outcomeOk st (handlePoseSelect_begin newIndex st).
Proof.
  unfold handlePoseSelect_begin.
  destruct (isLoading st) eqn:Hbusy; [done|]. simpl.
  destruct (_ || _); [done|].
  destruct (outfitHistory st !! currentOutfitIndex st) as [layer|] eqn:Hlayer;
    [|done].
  apply lookup_lt_Some in Hlayer.
  repeat case_match; simpl; auto; repeat split; try done; simpl; lia.
Qed.

Lemma handleRegenerateImage_begin_ok st :
  outcomeOk st (handleRegenerateImage_begin st).
Proof.
  unfold handleRegenerateImage_begin.
  destruct (isLoading st) eqn:Hbusy; [done|]. simpl.
  destruct (_ =? _)%nat; [done|].
  destruct (outfitHistory st !! currentOutfitIndex st) as [layer|] eqn:Hlayer;
    [|done].
  apply lookup_lt_Some in Hlayer.
  repeat case_match; simpl; auto; repeat split; try done; simpl; lia.
Qed.

Lemma handleChangeColor_begin_ok newColor st :
  outcomeOk st (handleChangeColor_begin newColor st).
Proof.
  destruct (handleChangeColor_begin newColor st) as [st'| |st1 request k] eqn:Hbegin;
    [|done|].
  - unfold handleChangeColor_begin in Hbegin.
    repeat case_match; simplify_eq; done.
  - apply handleChangeColor_begin_awaiting in Hbegin
      as (layer & g & baseImage & Hbusy & Hpos & Hlayer%lookup_lt_Some
          & _ & _ & _ & -> & _ & ->).
    simpl. repeat split; try done; simpl; lia.
Qed.

Lemma launch_invariant sys o :
  sysInvariant sys → outcomeOk (store sys) o → sysInvariant (launch sys o).
Proof.
  intros (Hhist & Hpend & Hone & Hbusy) Ho.
  apply historyInvariant_shape in Hhist as [Hshape Hidx].
  destruct o as [st'| |st1 request k]; simpl in *.
  - destruct Ho as (Hh & Hl & Hi). split; [|split; [|split]]; simpl.
    + apply historyInvariant_shape. rewrite Hh.
      split; [done|]. by destruct Hi as [->|[_ ?]].
    + destruct Hi as [Hi|[Hidle Hi]].
      * eapply Forall_impl; [done|]. unfold pendingOk. intros k. by rewrite Hh, Hi.
      * destruct (inflight sys); [done|]. rewrite Hbusy in Hidle; done.
    + done.
    + by rewrite Hl.
  - split; [by apply historyInvariant_shape|done].
  - destruct Ho as (Hidle & Hset & Hh & Hi & Hk).
    assert (inflight sys = []) as ->.
    { destruct (inflight sys); [done|]. rewrite Hbusy in Hidle; done. }
    split; [|split; [|split]]; simpl; [|by apply Forall_singleton|lia|done].
    apply historyInvariant_shape. by rewrite Hh, Hi.
Qed.

Lemma withStore_invariant sys st' :
  sysInvariant sys →
  outfitHistory st' = outfitHistory (store sys) →
  isLoading st' = isLoading (store sys) →
  currentOutfitIndex st' ≤ currentOutfitIndex (store sys) →
  sysInvariant (withStore sys st').
Proof.
  intros (Hhist & Hpend & Hone & Hbusy) Hh Hl Hi.
  apply historyInvariant_shape in Hhist as [Hshape Hidx].
  split; [|split; [|split]]; simpl; [| |done|by rewrite Hl].
  - apply historyInvariant_shape. rewrite Hh. split; [done|lia].
  - eapply Forall_impl; [done|]. unfold pendingOk.
    intros k (Hle & Hlt & Hcolor). rewrite Hh. split; [lia|by split].
Qed.

(** A consistent continuation always produces a state, and that state
    satisfies the history invariant again. *)
Lemma settle_invariant k r st :
  historyInvariant st → pendingOk st k →
  ∃ st', settle k r st = Some st' ∧ historyInvariant st'.
Proof.
  intros [Hshape Hidx]%historyInvariant_shape (Hle & Hlt & Hcolor).
  destruct (lookup_lt_is_Some_2 _ _ Hlt) as [layer Hlayer].
  destruct k as [i p g|i p instr|i p|i p g], r as [newImageUrl|err];
    simpl in *; rewrite ?Hlayer;
    try (eexists; split; [reflexivity|];
         apply historyInvariant_shape; simpl; by split).
  - eexists. split; [reflexivity|]. apply historyInvariant_shape. simpl.
    split; [by apply historyShape_take_snoc|].
    rewrite length_app, length_take, Nat.min_l by lia. simpl. lia.
  - eexists. split; [reflexivity|]. apply historyInvariant_shape. simpl.
    split; [by eapply historyShape_insert_same|by rewrite length_insert].
  - eexists. split; [reflexivity|]. apply historyInvariant_shape. simpl.
    split; [by eapply historyShape_insert_same|by rewrite length_insert].
  - destruct (Nat.ltb_spec i (length (outfitHistory st))); [|lia].
    eexists. split; [reflexivity|]. apply historyInvariant_shape. simpl.
    split; [by apply historyShape_insert_garment|by rewrite length_insert].
Qed.

Lemma step_invariant ev sys :
  sysInvariant sys →
  ∃ sys', step JSON_parse ev sys = Some sys' ∧ sysInvariant sys'.
Proof.
  intros Hinv. pose proof Hinv as (Hhist & Hpend & Hone & Hbusy).
  destruct ev as [garmentFile garmentInfo| |newIndex| |newColor
                  |now isoNow storageOk|outfitId storageOk|n r]; simpl.
  - eexists. split; [done|].
    by apply launch_invariant, handleGarmentSelect_begin_ok.
  - eexists. split; [done|]. apply withStore_invariant; [done|..];
      unfold handleRemoveLastGarment; case_match; simpl; lia || done.
  - eexists. split; [done|]. by apply launch_invariant, handlePoseSelect_begin_ok.
  - eexists. split; [done|].
    by apply launch_invariant, handleRegenerateImage_begin_ok.
  - eexists. split; [done|].
    by apply launch_invariant, handleChangeColor_begin_ok.
  - eexists. split; [done|]. apply withStore_invariant; [done|..];
      unfold handleSaveOutfit; repeat case_match; simpl; lia || done.
  - eexists. split; [done|]. apply withStore_invariant; [done|..];
      unfold handleDeleteOutfit; repeat case_match; simpl; lia || done.
  - destruct (inflight sys !! n) as [k|] eqn:Hk; [|by eexists].
    destruct (inflight sys) as [|k0 [|??]] eqn:Hin; [done| |simpl in Hone; lia].
    destruct n as [|n]; [|done]. simplify_eq/=.
    rewrite Forall_singleton in Hpend.
    destruct (settle_invariant k r _ Hhist Hpend) as (st' & -> & Hst').
    simpl. eexists. split; [reflexivity|].
    split; [done|]. simpl. split; [by apply Forall_nil|]. split; [lia|done].
Qed.

(** The model never gets stuck on a session that started with
    [handleModelFinalized], and every state it reaches is invariant. *)
Lemma run_invariant evs sys :
  sysInvariant sys →
  ∃ sys', run JSON_parse evs sys = Some sys' ∧ sysInvariant sys'.
Proof.
  revert sys. induction evs as [|ev evs IH]; intros sys Hinv; [by eexists|].
  destruct (step_invariant ev sys Hinv) as (sys1 & Hstep & Hinv1).
  simpl. rewrite Hstep. simpl. by apply IH.
Qed.

(** C8: from the state [handleModelFinalized] leaves, whatever the
    earlier state was, every sequence of user actions (applying and
    removing garments, selecting poses, regenerating, recolouring, saving
    and deleting outfits) interleaved in any way with the settling, by
    success or failure, of the call in flight, leads to a state whose
    history is non-empty, starts with a layer without garment, has a
    garment in every later layer, and contains the current index. *)
Theorem historyInvariant_after_finalize url st0 evs :
  ∃ sys, run JSON_parse evs (finalized url st0) = Some sys
         ∧ historyInvariant (store sys).
Proof.
  destruct (run_invariant evs (finalized url st0)) as (sys & Hrun & Hinv & _).
  - split; [by apply handleModelFinalized_invariant|].
    simpl. split; [by apply Forall_nil|]. split; [lia|done].
  - by exists sys.
Qed.

End StoreFacts.

(** * The statements at work on the worked session *)

Lemma handleGarmentSelect_new_garment_witness :
  isLoading session2 = false
  ∧ displayImageUrl session2 = Some "g1-p1.png"
  ∧ isRedoOf tee (outfitHistory session2 !! S (currentOutfitIndex session2)) = false
  ∧ ∃ st',
      handleGarmentSelect parseKnown "tee-file" tee (Fulfilled "g2.png") session2
        = Some st'
      ∧ length (outfitHistory st') = 3
      ∧ currentOutfitIndex st' = 2
      ∧ currentPoseIndex st' = 1.
Proof.
  assert (isLoading session2 = false) as Hidle by reflexivity.
  assert (displayImageUrl session2 = Some "g1-p1.png") as Hurl by reflexivity.
  assert (truthy "g1-p1.png" = true) as Htruthy by reflexivity.
  assert (currentOutfitIndex session2 < length (outfitHistory session2)) as Hlt
    by (vm_compute; lia).
  assert (isRedoOf tee (outfitHistory session2 !! S (currentOutfitIndex session2))
          = false) as Hnew by reflexivity.
  destruct (handleGarmentSelect_new_garment parseKnown "tee-file" tee "g2.png"
              session2 "g1-p1.png" Hidle Hurl Htruthy Hlt Hnew)
    as (st1 & k & st' & _ & Hrun & _ & Hlen & Hidx & Hpose & _).
  repeat split; try done. by exists st'.
Defined.

(** C1 as stated fails: a garment applied while pose 1 is displayed
    leaves the pose index at 1, it is not reset to 0. *)
Lemma handleGarmentSelect_keeps_pose_index :
  isLoading session2 = false
  ∧ currentOutfitIndex session2 < length (outfitHistory session2)
  ∧ isRedoOf tee (outfitHistory session2 !! S (currentOutfitIndex session2)) = false
  ∧ currentPoseIndex session2 = 1
  ∧ ∃ st',
      handleGarmentSelect parseKnown "tee-file" tee (Fulfilled "g2.png") session2
        = Some st'
      ∧ currentPoseIndex st' ≠ 0.
Proof.
  repeat split; try reflexivity; [vm_compute; lia|].
  eexists. split; [vm_compute; reflexivity|]. simpl. lia.
Qed.

Lemma handleGarmentSelect_redo_witness :
  isLoading session4 = false
  ∧ displayImageUrl session4 = Some "g1.png"
  ∧ (∃ nextLayer,
       outfitHistory session4 !! S (currentOutfitIndex session4) = Some nextLayer
       ∧ garment nextLayer = Some tee)
  ∧ ∃ st',
      handleGarmentSelect_begin "tee-file" tee session4 = Returned st'
      ∧ currentOutfitIndex st' = 2
      ∧ outfitHistory st' = outfitHistory session4.
Proof.
  assert (isLoading session4 = false) as Hidle by reflexivity.
  assert (displayImageUrl session4 = Some "g1.png") as Hurl by reflexivity.
  assert (truthy "g1.png" = true) as Htruthy by reflexivity.
  assert (outfitHistory session4 !! S (currentOutfitIndex session4)
          = Some {| garment := Some tee;
                    poseImages := [(poseKey 1, "g2.png")] |}) as Hnext
    by reflexivity.
  destruct (handleGarmentSelect_redo parseKnown "tee-file" tee session4 "g1.png"
              _ tee Hidle Hurl Htruthy Hnext eq_refl eq_refl)
    as (st' & Hbegin & _ & Hidx & Hhist & _).
  repeat split; try done; eauto.
Defined.

Lemma handleRemoveLastGarment_spec_witness :
  0 < currentOutfitIndex session3
  ∧ currentOutfitIndex (handleRemoveLastGarment session3) = 1
  ∧ currentPoseIndex (handleRemoveLastGarment session3) = 0
  ∧ outfitHistory (handleRemoveLastGarment session3) = outfitHistory session3
  ∧ ∃ st'',
      handleGarmentSelect_begin "tee-file" tee (handleRemoveLastGarment session3)
        = Returned st''
      ∧ currentOutfitIndex st'' = currentOutfitIndex session3
      ∧ outfitHistory st'' = outfitHistory session3.
Proof.
  assert (0 < currentOutfitIndex session3) as Hpos by (vm_compute; lia).
  destruct (handleRemoveLastGarment_spec session3) as [_ Hremove].
  destruct (Hremove Hpos) as (Hidx & Hpose & Hhist & Hredo).
  repeat split; try done.
  apply (Hredo {| garment := Some tee; poseImages := [(poseKey 1, "g2.png")] |}
               tee "tee-file" tee "g1.png"); reflexivity.
Defined.

Lemma handlePoseSelect_same_pose_witness :
  outfitHistory session5 ≠ []
  ∧ (∃ layer,
       outfitHistory session5 !! currentOutfitIndex session5 = Some layer
       ∧ pi_get (poseKey (currentPoseIndex session5)) (poseImages layer) = None)
  ∧ handlePoseSelect_begin (currentPoseIndex session5) session5 = Returned session5.
Proof.
  assert (outfitHistory session5 ≠ []) as Hne by done.
  split; [done|]. split; [by eexists|].
  apply (handlePoseSelect_same_pose parseKnown session5 (Fulfilled "unused.png") Hne).
Defined.

Lemma handlePoseSelect_failure_reverts_witness :
  (∃ request k st1,
     handlePoseSelect_begin 1 session1 = Awaiting st1 request k
     ∧ currentPoseIndex st1 = 1)
  ∧ ∃ st',
      handlePoseSelect parseKnown 1 (Rejected (VError "503")) session1 = Some st'
      ∧ currentPoseIndex st' = currentPoseIndex session1
      ∧ outfitHistory st' = outfitHistory session1.
Proof.
  assert (∀ layer,
            outfitHistory session1 !! currentOutfitIndex session1 = Some layer →
            truthy_opt (pi_get (poseKey 1) (poseImages layer)) = false) as Hnone.
  { intros layer Hlayer. vm_compute in Hlayer. by injection Hlayer as <-. }
  destruct (handlePoseSelect_failure_reverts parseKnown 1 (VError "503") session1
              Hnone) as [Hrevert Hmoved].
  split; [|done]. eexists _, _, _. split; [reflexivity|]. by eapply Hmoved.
Defined.

Lemma handleChangeColor_success_witness :
  0 < currentOutfitIndex session2
  ∧ handleChangeColor_begin "Red" session2
      = Awaiting busySession
          (changeGarmentColor "g1.png" "Dave's crush" "Red")
          (PChangeColor 1 1 sweat)
  ∧ ∃ st',
      handleChangeColor parseKnown "Red" (Fulfilled "red.png") session2 = Some st'
      ∧ outfitHistory st' !! 1 =
          Some {| garment := Some sweat; poseImages := [(poseKey 1, "red.png")] |}
      ∧ outfitHistory st' !! 0 = outfitHistory session2 !! 0
      ∧ currentOutfitIndex st' = 1 ∧ currentPoseIndex st' = 1.
Proof.
  assert (0 < currentOutfitIndex session2) as Hpos by (vm_compute; lia).
  assert (handleChangeColor_begin "Red" session2
          = Awaiting busySession
              (changeGarmentColor "g1.png" "Dave's crush" "Red")
              (PChangeColor 1 1 sweat)) as Hbegin by reflexivity.
  destruct (handleChangeColor_success parseKnown "Red" "red.png" session2 _ _ _
              Hpos Hbegin)
    as (layer & g & st' & Hlayer & Hg & Hrun & Hnew & Hother & _ & Hidx & Hpose).
  vm_compute in Hlayer. injection Hlayer as <-. injection Hg as <-.
  repeat split; try done. exists st'. repeat split; try done.
  by apply Hother.
Defined.

(** C3 as stated fails for [handleRemoveLastGarment]: it does not look
    at the busy flag, and with a call in flight it still steps back. *)
Lemma handleRemoveLastGarment_ignores_busy_flag :
  isLoading busySession = true
  ∧ currentOutfitIndex (handleRemoveLastGarment busySession)
      ≠ currentOutfitIndex busySession
  ∧ currentPoseIndex (handleRemoveLastGarment busySession)
      ≠ currentPoseIndex busySession.
Proof. repeat split; vm_compute; lia. Qed.

Lemma busy_flag_gates_async_handlers_witness :
  isLoading busySession = true
  ∧ handleGarmentSelect_begin "tee-file" tee busySession = Returned busySession
  ∧ handlePoseSelect_begin 2 busySession = Returned busySession
  ∧ handleRegenerateImage_begin busySession = Returned busySession
  ∧ handleChangeColor_begin "Blue" busySession = Returned busySession
  ∧ releasesBusyFlag parseKnown (handleChangeColor_begin "Red" session2).
Proof.
  assert (isLoading busySession = true) as Hbusy by reflexivity.
  destruct (busy_flag_gates_async_handlers parseKnown busySession)
    as (Hgate & _ & _ & _ & _).
  destruct (Hgate Hbusy) as (Hgarment & Hpose & Hregen & Hcolor).
  destruct (busy_flag_gates_async_handlers parseKnown session2)
    as (_ & _ & _ & _ & Hrelease).
  split; [done|].
  split; [apply (Hgarment "tee-file" tee (Fulfilled "unused.png"))|].
  split; [apply (Hpose 2 (Fulfilled "unused.png"))|].
  split; [apply (Hregen (Fulfilled "unused.png"))|].
  split; [apply (Hcolor "Blue" (Fulfilled "unused.png"))|].
  apply Hrelease.
Defined.

Lemma handleSaveOutfit_spec_witness :
  2 ≤ length (activeOutfitLayers session2)
  ∧ displayImageUrl session2 = Some "g1-p1.png"
  ∧ ∃ newSavedOutfit,
      savedOutfits savedOnce = newSavedOutfit :: savedOutfits session2
      ∧ outfit_id newSavedOutfit = "outfit-1761998400000"
      ∧ thumbnailUrl newSavedOutfit = "g1-p1.png"
      ∧ layers newSavedOutfit = activeOutfitLayers session2.
Proof.
  assert (2 ≤ length (activeOutfitLayers session2)) as Hlen by (vm_compute; lia).
  assert (displayImageUrl session2 = Some "g1-p1.png") as Hurl by reflexivity.
  destruct (handleSaveOutfit_spec 1761998400000 "2025-11-01T12:00:00.000Z" true
              session2) as [_ Hsave].
  destruct (Hsave "g1-p1.png" Hlen Hurl eq_refl)
    as (newSavedOutfit & Hnew & Hid & Hthumb & Hlayers & _).
  split; [done|]. split; [done|]. exists newSavedOutfit.
  split; [done|]. split; [|done]. rewrite Hid. by vm_compute.
Defined.

(** C6 as stated fails: two saves at one reading of the clock give two
    gallery entries with the same id. *)
Lemma handleSaveOutfit_duplicate_id :
  2 ≤ length (activeOutfitLayers savedOnce)
  ∧ outfit_id <$> savedOutfits savedTwice
      = ["outfit-1761998400000"; "outfit-1761998400000"]
  ∧ ¬ NoDup (outfit_id <$> savedOutfits savedTwice).
Proof.
  assert (outfit_id <$> savedOutfits savedTwice
          = ["outfit-1761998400000"; "outfit-1761998400000"]) as Hids
    by (by vm_compute).
  split; [vm_compute; lia|]. split; [done|].
  rewrite Hids. intros [Hnotin _]%NoDup_cons. apply Hnotin. by left.
Qed.

Lemma getFriendlyErrorMessage_spec_witness :
  includes "Unsupported MIME type" (rawMessageOf (VError wrappedMimeError)) = true
  ∧ getFriendlyErrorMessage parseKnown (VError wrappedMimeError)
      "Failed to apply garment"
    = "File type 'image/gif' is not supported. Please use a format like PNG, JPEG, or WEBP."
  ∧ getFriendlyErrorMessage parseKnown (VError "Network down")
      "Failed to apply garment"
    = "Failed to apply garment. Network down".
Proof.
  assert (includes "Unsupported MIME type" (rawMessageOf (VError wrappedMimeError))
          = true) as Hmarker by reflexivity.
  destruct (getFriendlyErrorMessage_spec parseKnown (VError wrappedMimeError)
              "Failed to apply garment") as (_ & Hmime & _).
  destruct (Hmime Hmarker) as (_ & Hnested & _).
  destruct (getFriendlyErrorMessage_spec parseKnown (VError "Network down")
              "Failed to apply garment") as (Hplain & _ & _).
  split; [done|]. split.
  - rewrite (Hnested _ _ "Unsupported MIME type: image/gif" eq_refl eq_refl eq_refl
               eq_refl). reflexivity.
  - by rewrite (Hplain eq_refl).
Defined.

(** The scenario of the specification, run through the transition system
    with a removal squeezed in while the tee call is in flight. *)
Lemma historyInvariant_after_finalize_witness :
  ∃ sys,
    run parseKnown
      [ GarmentSelect "sweat-file" sweat; Settle 0 (Fulfilled "g1.png");
        PoseSelect 1; Settle 0 (Fulfilled "g1-p1.png");
        GarmentSelect "tee-file" tee; RemoveLastGarment;
        Settle 0 (Fulfilled "g2.png") ]
      (finalized "m.png" (initialState defaultWardrobe)) = Some sys
    ∧ length (outfitHistory (store sys)) = 3
    ∧ currentOutfitIndex (store sys) = 1
    ∧ historyInvariant (store sys).
Proof.
  destruct (historyInvariant_after_finalize parseKnown "m.png"
              (initialState defaultWardrobe)
              [ GarmentSelect "sweat-file" sweat; Settle 0 (Fulfilled "g1.png");
                PoseSelect 1; Settle 0 (Fulfilled "g1-p1.png");
                GarmentSelect "tee-file" tee; RemoveLastGarment;
                Settle 0 (Fulfilled "g2.png") ])
    as (sys & Hrun & Hinv).
  exists sys. split; [done|].
  vm_compute in Hrun. injection Hrun as <-.
  split; [reflexivity|]. split; [reflexivity|]. exact Hinv.
Defined.

(** * Further properties of the handlers *)

Section MoreFacts.

Variable JSON_parse : string → option Json.

Local Abbreviation settle := (settle JSON_parse).
Local Abbreviation handleGarmentSelect := (handleGarmentSelect JSON_parse).
Local Abbreviation handlePoseSelect := (handlePoseSelect JSON_parse).
Local Abbreviation handleRegenerateImage := (handleRegenerateImage JSON_parse).
Local Abbreviation handleChangeColor := (handleChangeColor JSON_parse).

(** ** The pose cache of a layer *)

Lemma pi_get_set_eq k v m : pi_get k (pi_set k v m) = Some v.
Proof.
  induction m as [|[k' v'] m IH]; simpl.
  - by rewrite String.eqb_refl.
  - destruct (String.eqb k' k) eqn:Hk; simpl; by rewrite Hk.
Qed.

Lemma pi_get_set_ne k k' v m : k' ≠ k → pi_get k' (pi_set k v m) = pi_get k' m.
Proof.
  intros Hne. induction m as [|[k0 v0] m IH]; simpl.
  - by destruct (String.eqb_spec k k').
  - destruct (String.eqb_spec k0 k) as [->|]; simpl; [|by rewrite IH].
    by destruct (String.eqb_spec k k').
Qed.

(** Writing a key whose cached value is not the first render leaves the
    first render in place. *)
Lemma firstValue_set k v m first :
  firstValue m = Some first → pi_get k m ≠ Some first →
  firstValue (pi_set k v m) = Some first.
Proof.
  destruct m as [|[k0 v0] m]; [done|]. simpl. intros [= ->] Hget.
  by destruct (String.eqb k0 k).
Qed.

Lemma pi_set_nonempty k v m : pi_set k v m ≠ [].
Proof. destruct m as [|[k0 v0] m]; simpl; [done|by case_match]. Qed.

Lemma pi_get_value k v m : pi_get k m = Some v → v ∈ m.*2.
Proof.
  induction m as [|[k0 v0] m IH]; simpl; [done|].
  destruct (String.eqb k0 k); [intros [= ->]; by left|by right; auto].
Qed.

(** ** Selecting a pose, continued *)

(** When [handlePoseSelect] issues its call. *)
Lemma handlePoseSelect_begin_awaiting newIndex st st1 request k :
  handlePoseSelect_begin newIndex st = Awaiting st1 request k →
  ∃ layer baseImage,
    isLoading st = false ∧ newIndex ≠ currentPoseIndex st
    ∧ outfitHistory st !! currentOutfitIndex st = Some layer
    ∧ truthy_opt (pi_get (poseKey newIndex) (poseImages layer)) = false
    ∧ firstValue (poseImages layer) = Some baseImage ∧ truthy baseImage = true
    ∧ st1 = (st |> setError None |> setIsLoading true
                |> setLoadingMessage "Changing pose..."
                |> setCurrentPoseIndex newIndex)
    ∧ request = generatePoseVariation baseImage (poseKey newIndex)
    ∧ k = PPoseSelect (currentOutfitIndex st) (currentPoseIndex st)
            (poseKey newIndex).
Proof.
  unfold handlePoseSelect_begin.
  destruct (isLoading st) eqn:Hbusy; [done|]. simpl.
  destruct (_ =? 0); [done|]. simpl.
  destruct (Nat.eqb_spec newIndex (currentPoseIndex st)); [done|].
  destruct (outfitHistory st !! currentOutfitIndex st) as [layer|]; [|done].
  destruct (truthy_opt _) eqn:Hcached; [done|].
  destruct (firstValue (poseImages layer)) as [baseImage|] eqn:Hbase; [|done].
  destruct (truthy baseImage) eqn:Htruthy; [|done].
  intros [= <- <- <-]. by exists layer, baseImage.
Qed.

(** X1: a pose render that was requested and delivered is added to the
    active layer under the key of the new pose; every other cached
    render of that layer, its first render, its garment and every other
    layer are kept; the pose index is the new one and the flag is
    cleared.  When the delivered image is non-empty, asking for that pose
    again from any other pose index returns without a call. *)
Theorem handlePoseSelect_generated newIndex newImageUrl st st1 request k :
  handlePoseSelect_begin newIndex st = Awaiting st1 request k →
  ∃ layer baseImage st' layer',
    outfitHistory st !! currentOutfitIndex st = Some layer
    ∧ firstValue (poseImages layer) = Some baseImage
    ∧ request = generatePoseVariation baseImage (poseKey newIndex)
    ∧ handlePoseSelect newIndex (Fulfilled newImageUrl) st = Some st'
    ∧ outfitHistory st' !! currentOutfitIndex st = Some layer'
    ∧ garment layer' = garment layer
    ∧ pi_get (poseKey newIndex) (poseImages layer') = Some newImageUrl
    ∧ (∀ key, key ≠ poseKey newIndex →
         pi_get key (poseImages layer') = pi_get key (poseImages layer))
    ∧ firstValue (poseImages layer') = Some baseImage
    ∧ (∀ j, j ≠ currentOutfitIndex st →
         outfitHistory st' !! j = outfitHistory st !! j)
    ∧ currentOutfitIndex st' = currentOutfitIndex st
    ∧ currentPoseIndex st' = newIndex
    ∧ isLoading st' = false
    ∧ (truthy newImageUrl = true → ∀ otherPose, otherPose ≠ newIndex →
         handlePoseSelect_begin newIndex (setCurrentPoseIndex otherPose st')
         = Returned (setCurrentPoseIndex newIndex st')).
Proof.
  intros Hbegin. unfold handlePoseSelect. rewrite Hbegin.
  apply handlePoseSelect_begin_awaiting in Hbegin
    as (layer & baseImage & Hidle & Hne & Hlayer & Hcached & Hbase & Htruthy
        & -> & -> & ->).
  pose proof (lookup_lt_Some _ _ _ Hlayer) as Hlt.
  simpl. rewrite Hlayer.
  eexists layer, baseImage, _, _.
  split; [done|]. split; [done|]. split; [done|]. split; [reflexivity|].
  simpl. split; [by apply list_lookup_insert_eq|]. simpl.
  split; [done|]. split; [apply pi_get_set_eq|].
  split; [intros key Hkey; by apply pi_get_set_ne|].
  split.
  { apply firstValue_set; [done|]. intros Hget. rewrite Hget in Hcached.
    simpl in Hcached. congruence. }
  split; [intros j Hj; by apply list_lookup_insert_ne|].
  split; [done|]. split; [done|]. split; [done|].
  intros Hnew otherPose Hother. unfold handlePoseSelect_begin. simpl.
  destruct (outfitHistory st) as [|base rest] eqn:Hhist; [done|].
  rewrite <- Hhist in *.
  assert ((length (<[currentOutfitIndex st:=
            {| garment := garment layer;
               poseImages := pi_set (poseKey newIndex) newImageUrl (poseImages layer) |}]>
            (outfitHistory st)) =? 0) = false) as ->.
  { rewrite length_insert. apply Nat.eqb_neq. lia. }
  destruct (Nat.eqb_spec newIndex otherPose); [congruence|]. simpl.
  rewrite list_lookup_insert_eq by done. simpl.
  by rewrite pi_get_set_eq; simpl; rewrite Hnew.
Qed.

(** X2: selecting a pose the active layer already has a non-empty render
    for, in an idle editor, only moves the pose index: no call, the
    history as it was, the cached render displayed; selecting it a second
    time returns the very same state. *)
Theorem handlePoseSelect_cached newIndex st layer cachedUrl r :
  isLoading st = false →
  outfitHistory st !! currentOutfitIndex st = Some layer →
  pi_get (poseKey newIndex) (poseImages layer) = Some cachedUrl →
  truthy cachedUrl = true →
  ∃ st',
    handlePoseSelect newIndex r st = Some st'
    ∧ (∀ st1 request k, handlePoseSelect_begin newIndex st ≠ Awaiting st1 request k)
    ∧ currentPoseIndex st' = newIndex
    ∧ outfitHistory st' = outfitHistory st
    ∧ currentOutfitIndex st' = currentOutfitIndex st
    ∧ displayImageUrl st' = Some cachedUrl
    ∧ handlePoseSelect newIndex r st' = Some st'.
Proof.
  intros Hidle Hlayer Hget Htruthy.
  assert (outfitHistory st ≠ []) as Hne by (intros Hnil; by rewrite Hnil in Hlayer).
  assert ((length (outfitHistory st) =? 0) = false) as Hlen.
  { apply Nat.eqb_neq. by destruct (outfitHistory st). }
  unfold handlePoseSelect, handlePoseSelect_begin.
  rewrite Hidle, Hlen. simpl.
  destruct (Nat.eqb_spec newIndex (currentPoseIndex st)) as [->|Hother].
  - exists st. repeat split; try done.
    + unfold displayImageUrl. rewrite Hlayer, Hget. by destruct (outfitHistory st).
    + by rewrite Hidle, Hlen, Nat.eqb_refl.
  - rewrite Hlayer, Hget. simpl. rewrite Htruthy.
    eexists. split; [reflexivity|]. simpl. repeat split; try done.
    + unfold displayImageUrl. simpl. rewrite Hlayer, Hget.
      by destruct (outfitHistory st).
    + by rewrite Hidle, Hlen, Nat.eqb_refl.
Qed.

(** ** Regenerating the active layer *)

(** When [handleRegenerateImage] issues its call. *)
Lemma handleRegenerateImage_begin_awaiting st st1 request k :
  handleRegenerateImage_begin st = Awaiting st1 request k →
  ∃ layer g previousLayer baseModelImage,
    isLoading st = false ∧ 0 < currentOutfitIndex st
    ∧ outfitHistory st !! currentOutfitIndex st = Some layer
    ∧ garment layer = Some g
    ∧ outfitHistory st !! (currentOutfitIndex st - 1) = Some previousLayer
    ∧ firstValue (poseImages previousLayer) = Some baseModelImage
    ∧ truthy baseModelImage = true
    ∧ st1 = (st |> setError None |> setIsLoading true
                |> setLoadingMessage ("Regenerating " +:+ item_name g +:+ "..."))
    ∧ request = regenerateFromUrl (item_url g) (item_name g) baseModelImage
    ∧ k = PRegenerate (currentOutfitIndex st) (currentPoseIndex st).
Proof.
  unfold handleRegenerateImage_begin.
  destruct (isLoading st) eqn:Hbusy; [done|].
  destruct (Nat.eqb_spec (currentOutfitIndex st) 0) as [|Hidx]; [done|]. simpl.
  destruct (outfitHistory st !! currentOutfitIndex st) as [layer|]; [|done].
  destruct (garment layer) as [g|] eqn:Hg; [|done].
  destruct (outfitHistory st !! (currentOutfitIndex st - 1)) as [previousLayer|];
    [|done].
  destruct (firstValue (poseImages previousLayer)) as [baseModelImage|] eqn:Hbase;
    [|done].
  destruct (truthy baseModelImage) eqn:Htruthy; [|done].
  intros [= <- <- <-]. exists layer, g, previousLayer, baseModelImage.
  repeat split; try done. lia.
Qed.

(** X3: a regeneration that was requested and delivered is made from the
    garment's stored URL and the first render of the layer below, and it
    overwrites, in the active layer, the render of the current pose only:
    the other cached poses, the garment, the other layers, the index and
    the pose index are kept, and the flag is cleared. *)
Theorem handleRegenerateImage_success newImageUrl st st1 request k :
  handleRegenerateImage_begin st = Awaiting st1 request k →
  ∃ layer g previousLayer baseModelImage st' layer',
    0 < currentOutfitIndex st
    ∧ outfitHistory st !! currentOutfitIndex st = Some layer
    ∧ garment layer = Some g
    ∧ outfitHistory st !! (currentOutfitIndex st - 1) = Some previousLayer
    ∧ firstValue (poseImages previousLayer) = Some baseModelImage
    ∧ request = regenerateFromUrl (item_url g) (item_name g) baseModelImage
    ∧ handleRegenerateImage (Fulfilled newImageUrl) st = Some st'
    ∧ outfitHistory st' !! currentOutfitIndex st = Some layer'
    ∧ garment layer' = Some g
    ∧ pi_get (poseKey (currentPoseIndex st)) (poseImages layer') = Some newImageUrl
    ∧ (∀ key, key ≠ poseKey (currentPoseIndex st) →
         pi_get key (poseImages layer') = pi_get key (poseImages layer))
    ∧ (∀ j, j ≠ currentOutfitIndex st →
         outfitHistory st' !! j = outfitHistory st !! j)
    ∧ currentOutfitIndex st' = currentOutfitIndex st
    ∧ currentPoseIndex st' = currentPoseIndex st
    ∧ isLoading st' = false.
Proof.
  intros Hbegin. unfold handleRegenerateImage. rewrite Hbegin.
  apply handleRegenerateImage_begin_awaiting in Hbegin
    as (layer & g & previousLayer & baseModelImage & Hidle & Hpos & Hlayer & Hg
        & Hprev & Hbase & Htruthy & -> & -> & ->).
  pose proof (lookup_lt_Some _ _ _ Hlayer) as Hlt.
  simpl. rewrite Hlayer.
  eexists layer, g, previousLayer, baseModelImage, _, _.
  do 6 (split; [done|]). split; [reflexivity|]. simpl.
  split; [by apply list_lookup_insert_eq|]. simpl.
  split; [done|]. split; [apply pi_get_set_eq|].
  split; [intros key Hkey; by apply pi_get_set_ne|].
  split; [intros j Hj; by apply list_lookup_insert_ne|]. done.
Qed.

(** X4: when [canRegenerate] is false, that is on the base layer, and
    on an active layer that carries no garment, regenerating and
    recolouring return at once: no call, the state as it was. *)
Theorem base_layer_is_not_regenerated st newColor r :
  (canRegenerate st = false ∨
   ∃ layer, outfitHistory st !! currentOutfitIndex st = Some layer
            ∧ garment layer = None) →
  handleRegenerateImage_begin st = Returned st
  ∧ handleRegenerateImage r st = Some st
  ∧ handleChangeColor_begin newColor st = Returned st
  ∧ handleChangeColor newColor r st = Some st.
Proof.
  unfold handleRegenerateImage, handleChangeColor, handleRegenerateImage_begin,
    handleChangeColor_begin.
  intros [Hbase|(layer & -> & ->)].
  - unfold canRegenerate in Hbase. apply Nat.ltb_ge in Hbase.
    replace (currentOutfitIndex st) with 0 by lia. by rewrite !orb_true_r.
  - by destruct (_ || _).
Qed.

(** ** Failed calls *)

(** X5: when the call of [handleGarmentSelect], [handlePoseSelect],
    [handleRegenerateImage] or [handleChangeColor] is rejected, history,
    layer index, pose index, wardrobe and gallery end as they were when
    the handler was invoked, the busy flag is cleared, and the error
    shown is the translation of the failure under the handler's own
    context string. *)
Theorem rejected_call_keeps_store st :
  (∀ garmentFile garmentInfo,
     failureKeepsStore JSON_parse st "Failed to apply garment"
       (handleGarmentSelect_begin garmentFile garmentInfo st))
  ∧ (∀ newIndex,
       failureKeepsStore JSON_parse st "Failed to change pose"
         (handlePoseSelect_begin newIndex st))
  ∧ failureKeepsStore JSON_parse st "Failed to regenerate image"
      (handleRegenerateImage_begin st)
  ∧ (∀ newColor,
       failureKeepsStore JSON_parse st "Failed to change color"
         (handleChangeColor_begin newColor st)).
Proof.
  split; [|split; [|split]].
  - intros garmentFile garmentInfo st1 request k err.
    unfold handleGarmentSelect_begin. repeat case_match; try done.
    intros [= <- <- <-]. by eexists.
  - intros newIndex st1 request k err Hbegin.
    apply handlePoseSelect_begin_awaiting in Hbegin
      as (? & ? & _ & _ & _ & _ & _ & _ & -> & _ & ->). by eexists.
  - intros st1 request k err Hbegin.
    apply handleRegenerateImage_begin_awaiting in Hbegin
      as (? & ? & ? & ? & _ & _ & _ & _ & _ & _ & _ & -> & _ & ->). by eexists.
  - intros newColor st1 request k err Hbegin.
    apply handleChangeColor_begin_awaiting in Hbegin
      as (? & ? & ? & _ & _ & _ & _ & _ & _ & -> & _ & ->). by eexists.
Qed.

(** ** What is displayed after a delivery *)

Lemma displayImageUrl_cached st layer url :
  outfitHistory st !! currentOutfitIndex st = Some layer →
  pi_get (poseKey (currentPoseIndex st)) (poseImages layer) = Some url →
  displayImageUrl st = Some url.
Proof.
  intros Hlayer Hget. unfold displayImageUrl. rewrite Hlayer, Hget.
  destruct (outfitHistory st); [done|done].
Qed.

(** X6: whichever of the four handlers issued the call, once the image
    is delivered it is the image on display (the index being inside the
    history when the handler was invoked). *)
Theorem delivered_image_is_displayed newImageUrl st :
  currentOutfitIndex st < length (outfitHistory st) →
  (∀ garmentFile garmentInfo st1 request k,
     handleGarmentSelect_begin garmentFile garmentInfo st = Awaiting st1 request k →
     ∃ st', handleGarmentSelect garmentFile garmentInfo (Fulfilled newImageUrl) st
              = Some st'
            ∧ displayImageUrl st' = Some newImageUrl)
  ∧ (∀ newIndex st1 request k,
       handlePoseSelect_begin newIndex st = Awaiting st1 request k →
       ∃ st', handlePoseSelect newIndex (Fulfilled newImageUrl) st = Some st'
              ∧ displayImageUrl st' = Some newImageUrl)
  ∧ (∀ st1 request k,
       handleRegenerateImage_begin st = Awaiting st1 request k →
       ∃ st', handleRegenerateImage (Fulfilled newImageUrl) st = Some st'
              ∧ displayImageUrl st' = Some newImageUrl)
  ∧ (∀ newColor st1 request k,
       handleChangeColor_begin newColor st = Awaiting st1 request k →
       ∃ st', handleChangeColor newColor (Fulfilled newImageUrl) st = Some st'
              ∧ displayImageUrl st' = Some newImageUrl).
Proof.
  intros Hlt. split; [|split; [|split]].
  - intros garmentFile garmentInfo st1 request k Hbegin.
    unfold handleGarmentSelect. rewrite Hbegin.
    unfold handleGarmentSelect_begin in Hbegin.
    repeat case_match; try done. injection Hbegin as <- <- <-.
    eexists. split; [reflexivity|].
    eapply displayImageUrl_cached; simpl.
    + rewrite lookup_app_r; rewrite length_take, Nat.min_l by lia; [|lia].
      by rewrite Nat.sub_diag.
    + simpl. by rewrite String.eqb_refl.
  - intros newIndex st1 request k Hbegin.
    unfold handlePoseSelect. rewrite Hbegin.
    apply handlePoseSelect_begin_awaiting in Hbegin
      as (layer & ? & _ & _ & Hlayer & _ & _ & _ & -> & _ & ->).
    simpl. rewrite Hlayer. eexists. split; [reflexivity|].
    eapply displayImageUrl_cached; simpl.
    + by apply list_lookup_insert_eq.
    + apply pi_get_set_eq.
  - intros st1 request k Hbegin.
    unfold handleRegenerateImage. rewrite Hbegin.
    apply handleRegenerateImage_begin_awaiting in Hbegin
      as (layer & ? & ? & ? & _ & _ & Hlayer & _ & _ & _ & _ & -> & _ & ->).
    simpl. rewrite Hlayer. eexists. split; [reflexivity|].
    eapply displayImageUrl_cached; simpl.
    + by apply list_lookup_insert_eq.
    + apply pi_get_set_eq.
  - intros newColor st1 request k Hbegin.
    unfold handleChangeColor. rewrite Hbegin.
    apply handleChangeColor_begin_awaiting in Hbegin
      as (layer & ? & ? & _ & _ & Hlayer & _ & _ & _ & -> & _ & ->).
    simpl. destruct (Nat.ltb_spec (currentOutfitIndex st) (length (outfitHistory st)));
      [|lia].
    eexists. split; [reflexivity|].
    eapply displayImageUrl_cached; simpl.
    + by apply list_lookup_insert_eq.
    + simpl. by rewrite String.eqb_refl.
Qed.

(** ** The gallery, continued *)

Lemma filter_bool_elem_of {A} (f : A → bool) (l : list A) x :
  x ∈ List.filter f l ↔ x ∈ l ∧ f x = true.
Proof. rewrite !list_elem_of_In. apply filter_In. Qed.

Lemma filter_bool_sublist {A} (f : A → bool) (l : list A) :
  List.filter f l `sublist_of` l.
Proof.
  induction l as [|x l IH]; simpl; [done|].
  destruct (f x); [by apply sublist_skip|by apply sublist_cons].
Qed.

Lemma filter_bool_all {A} (f : A → bool) (l : list A) :
  (∀ x, x ∈ l → f x = true) → List.filter f l = l.
Proof.
  induction l as [|x l IH]; simpl; [done|]. intros Hall.
  rewrite (Hall x) by (by left). f_equal. apply IH. intros y Hy. apply Hall. by right.
Qed.

Lemma filter_bool_idemp {A} (f : A → bool) (l : list A) :
  List.filter f (List.filter f l) = List.filter f l.
Proof.
  apply filter_bool_all. by intros x [_ Hx]%filter_bool_elem_of.
Qed.

Lemma outfit_id_kept outfitId outfit :
  negb (String.eqb (outfit_id outfit) outfitId) = true ↔ outfit_id outfit ≠ outfitId.
Proof. rewrite negb_true_iff. apply String.eqb_neq. Qed.

(** X7: [handleDeleteOutfit] keeps, in their order, exactly the entries
    whose id differs from the one given, whether or not the store can be
    written: an id that no entry has leaves the gallery as it is,
    deleting twice is deleting once, and the editing state is not
    touched. *)
Theorem handleDeleteOutfit_spec outfitId storageOk st :
  let st' := handleDeleteOutfit outfitId storageOk st in
  (∀ outfit, outfit ∈ savedOutfits st' ↔
             outfit ∈ savedOutfits st ∧ outfit_id outfit ≠ outfitId)
  ∧ savedOutfits st' `sublist_of` savedOutfits st
  ∧ ((∀ outfit, outfit ∈ savedOutfits st → outfit_id outfit ≠ outfitId) →
     savedOutfits st' = savedOutfits st)
  ∧ (∀ storageOk',
       savedOutfits (handleDeleteOutfit outfitId storageOk' st') = savedOutfits st')
  ∧ outfitHistory st' = outfitHistory st
  ∧ currentOutfitIndex st' = currentOutfitIndex st
  ∧ currentPoseIndex st' = currentPoseIndex st
  ∧ isLoading st' = isLoading st.
Proof.
  assert (∀ ok s, savedOutfits (handleDeleteOutfit outfitId ok s)
            = List.filter (λ outfit, negb (String.eqb (outfit_id outfit) outfitId))
                (savedOutfits s)) as Hsaved
    by (intros [] s; reflexivity).
  simpl. split; [|split; [|split; [|split]]].
  - intros outfit. rewrite Hsaved, filter_bool_elem_of. by rewrite outfit_id_kept.
  - rewrite Hsaved. apply filter_bool_sublist.
  - intros Hfresh. rewrite Hsaved. apply filter_bool_all.
    intros outfit Hin. by apply outfit_id_kept, Hfresh.
  - intros storageOk'. rewrite !Hsaved. apply filter_bool_idemp.
  - by destruct storageOk.
Qed.

(** X8: deleting the id [outfit-<clock>] right after a save made at that
    reading of the clock removes the new entry together with every older
    entry of the same id; when no older entry has it, the gallery is
    back to what it was before the save. *)
Theorem save_then_delete now isoNow savedOk deletedOk st thumbnail :
  (2 ≤ length (activeOutfitLayers st))%nat →
  displayImageUrl st = Some thumbnail → truthy thumbnail = true →
  let newId := "outfit-" +:+ pretty now in
  let st' := handleDeleteOutfit newId deletedOk
               (handleSaveOutfit now isoNow savedOk st) in
  savedOutfits st' =
    List.filter (λ outfit, negb (String.eqb (outfit_id outfit) newId))
      (savedOutfits st)
  ∧ ((∀ old, old ∈ savedOutfits st → outfit_id old ≠ newId) →
     savedOutfits st' = savedOutfits st).
Proof.
  intros Hlen Hurl Htruthy newId st'.
  assert (savedOutfits st' =
            List.filter (λ outfit, negb (String.eqb (outfit_id outfit) newId))
              (savedOutfits st)) as Hsaved.
  { subst st'. unfold handleSaveOutfit. rewrite Hurl, Htruthy.
    destruct (Nat.leb_spec (length (activeOutfitLayers st)) 1); [lia|].
    destruct savedOk, deletedOk; simpl; by rewrite String.eqb_refl. }
  split; [done|]. intros Hfresh. rewrite Hsaved. apply filter_bool_all.
  intros old Hold. by apply outfit_id_kept, Hfresh.
Qed.

(** ** The wardrobe *)

Lemma addToWardrobe_present garmentInfo prev :
  (∃ item, item ∈ prev ∧ item_id item = item_id garmentInfo) →
  addToWardrobe garmentInfo prev = prev.
Proof.
  intros (item & Hin & Hid). unfold addToWardrobe.
  assert (existsb (λ item, String.eqb (item_id item) (item_id garmentInfo)) prev
          = true) as ->; [|done].
  apply existsb_exists. exists item. split; [by apply list_elem_of_In|].
  by apply String.eqb_eq.
Qed.

Lemma addToWardrobe_absent garmentInfo prev :
  (∀ item, item ∈ prev → item_id item ≠ item_id garmentInfo) →
  addToWardrobe garmentInfo prev = (prev ++ [garmentInfo])%list.
Proof.
  intros Hfresh. unfold addToWardrobe.
  destruct (existsb _ prev) eqn:Hex; [|done].
  apply existsb_exists in Hex as (item & Hin%list_elem_of_In & Hid%String.eqb_eq).
  by destruct (Hfresh item Hin).
Qed.

Lemma addToWardrobe_cases garmentInfo prev :
  (addToWardrobe garmentInfo prev = prev
   ∧ ∃ item, item ∈ prev ∧ item_id item = item_id garmentInfo)
  ∨ (addToWardrobe garmentInfo prev = (prev ++ [garmentInfo])%list
     ∧ ∀ item, item ∈ prev → item_id item ≠ item_id garmentInfo).
Proof.
  unfold addToWardrobe. destruct (existsb _ prev) eqn:Hex.
  - left. split; [done|].
    apply existsb_exists in Hex as (item & Hin%list_elem_of_In & Hid%String.eqb_eq).
    eauto.
  - right. split; [done|]. intros item Hin Hid.
    apply not_true_iff_false in Hex. apply Hex, existsb_exists.
    exists item. split; [by apply list_elem_of_In|by apply String.eqb_eq].
Qed.

Lemma addToWardrobe_NoDup garmentInfo prev :
  NoDup (item_id <$> prev) → NoDup (item_id <$> addToWardrobe garmentInfo prev).
Proof.
  intros Hnodup.
  destruct (addToWardrobe_cases garmentInfo prev) as [[-> _]|[-> Hfresh]]; [done|].
  rewrite fmap_app. apply NoDup_app. split; [done|]. split; [|apply NoDup_singleton].
  intros id (item & -> & Hin)%list_elem_of_fmap Hid.
  apply list_elem_of_singleton in Hid. by apply (Hfresh item).
Qed.

(** X9: a garment whose try-on was delivered is in the wardrobe
    afterwards: a wardrobe that already had an item of that id is
    unchanged, otherwise the garment is appended, and ids that were
    distinct stay distinct. *)
Theorem applied_garment_joins_wardrobe garmentFile garmentInfo newImageUrl
    st st1 request k :
  handleGarmentSelect_begin garmentFile garmentInfo st = Awaiting st1 request k →
  ∃ st',
    handleGarmentSelect garmentFile garmentInfo (Fulfilled newImageUrl) st = Some st'
    ∧ (∃ item, item ∈ wardrobe st' ∧ item_id item = item_id garmentInfo)
    ∧ ((∃ item, item ∈ wardrobe st ∧ item_id item = item_id garmentInfo) →
       wardrobe st' = wardrobe st)
    ∧ ((∀ item, item ∈ wardrobe st → item_id item ≠ item_id garmentInfo) →
       wardrobe st' = (wardrobe st ++ [garmentInfo])%list)
    ∧ (NoDup (item_id <$> wardrobe st) → NoDup (item_id <$> wardrobe st')).
Proof.
  intros Hbegin. unfold handleGarmentSelect. rewrite Hbegin.
  unfold handleGarmentSelect_begin in Hbegin.
  repeat case_match; try done. injection Hbegin as <- <- <-.
  eexists. split; [reflexivity|]. simpl.
  split; [|split; [|split]].
  - destruct (addToWardrobe_cases garmentInfo (wardrobe st))
      as [[-> Hin]|[-> _]]; [done|].
    exists garmentInfo. split; [|done]. apply elem_of_app. right. by left.
  - apply addToWardrobe_present.
  - apply addToWardrobe_absent.
  - apply addToWardrobe_NoDup.
Qed.

(** ** The poses a layer offers *)

Lemma pi_set_keys k v m key :
  key ∈ (pi_set k v m).*1 ↔ key = k ∨ key ∈ m.*1.
Proof.
  induction m as [|[k0 v0] m IH]; simpl.
  - rewrite list_elem_of_singleton. split; [by left|]. intros [->|Hin]; [done|].
    by apply elem_of_nil in Hin.
  - destruct (String.eqb_spec k0 k) as [->|Hne]; simpl.
    + rewrite !elem_of_cons. tauto.
    + rewrite !elem_of_cons, IH. tauto.
Qed.

Lemma availablePoseKeys_lookup st layer :
  outfitHistory st !! currentOutfitIndex st = Some layer →
  availablePoseKeys st = (poseImages layer).*1.
Proof.
  intros Hlayer. unfold availablePoseKeys. rewrite Hlayer.
  by destruct (outfitHistory st).
Qed.

(** X10: how a delivery changes the poses the active layer offers
    ([availablePoseKeys]).  A pose render and a regeneration keep every
    pose that was offered and offer the pose they rendered; a colour
    change, like a newly applied garment (the index being inside the
    history), leaves the current pose as the only one offered. *)
Theorem available_poses_after_delivery newImageUrl st :
  (∀ newIndex st1 request k,
     handlePoseSelect_begin newIndex st = Awaiting st1 request k →
     ∃ st', handlePoseSelect newIndex (Fulfilled newImageUrl) st = Some st'
            ∧ (∀ key, key ∈ availablePoseKeys st' ↔
                      key = poseKey newIndex ∨ key ∈ availablePoseKeys st))
  ∧ (∀ st1 request k,
       handleRegenerateImage_begin st = Awaiting st1 request k →
       ∃ st', handleRegenerateImage (Fulfilled newImageUrl) st = Some st'
              ∧ (∀ key, key ∈ availablePoseKeys st' ↔
                        key = poseKey (currentPoseIndex st)
                        ∨ key ∈ availablePoseKeys st))
  ∧ (∀ newColor st1 request k,
       handleChangeColor_begin newColor st = Awaiting st1 request k →
       ∃ st', handleChangeColor newColor (Fulfilled newImageUrl) st = Some st'
              ∧ availablePoseKeys st' = [poseKey (currentPoseIndex st)])
  ∧ (∀ garmentFile garmentInfo st1 request k,
       currentOutfitIndex st < length (outfitHistory st) →
       handleGarmentSelect_begin garmentFile garmentInfo st = Awaiting st1 request k →
       ∃ st', handleGarmentSelect garmentFile garmentInfo (Fulfilled newImageUrl) st
                = Some st'
              ∧ availablePoseKeys st' = [poseKey (currentPoseIndex st)]).
Proof.
  split; [|split; [|split]].
  - intros newIndex st1 request k Hbegin.
    unfold handlePoseSelect. rewrite Hbegin.
    apply handlePoseSelect_begin_awaiting in Hbegin
      as (layer & ? & _ & _ & Hlayer & _ & _ & _ & -> & _ & ->).
    pose proof (lookup_lt_Some _ _ _ Hlayer) as Hlt.
    simpl. rewrite Hlayer. eexists. split; [reflexivity|]. intros key.
    rewrite (availablePoseKeys_lookup st layer Hlayer).
    erewrite availablePoseKeys_lookup; [|simpl; by apply list_lookup_insert_eq].
    apply pi_set_keys.
  - intros st1 request k Hbegin.
    unfold handleRegenerateImage. rewrite Hbegin.
    apply handleRegenerateImage_begin_awaiting in Hbegin
      as (layer & ? & ? & ? & _ & _ & Hlayer & _ & _ & _ & _ & -> & _ & ->).
    pose proof (lookup_lt_Some _ _ _ Hlayer) as Hlt.
    simpl. rewrite Hlayer. eexists. split; [reflexivity|]. intros key.
    rewrite (availablePoseKeys_lookup st layer Hlayer).
    erewrite availablePoseKeys_lookup; [|simpl; by apply list_lookup_insert_eq].
    apply pi_set_keys.
  - intros newColor st1 request k Hbegin.
    unfold handleChangeColor. rewrite Hbegin.
    apply handleChangeColor_begin_awaiting in Hbegin
      as (layer & ? & ? & _ & _ & Hlayer%lookup_lt_Some & _ & _ & _ & -> & _ & ->).
    simpl. destruct (Nat.ltb_spec (currentOutfitIndex st) (length (outfitHistory st)));
      [|lia].
    eexists. split; [reflexivity|].
    erewrite availablePoseKeys_lookup; [|simpl; by apply list_lookup_insert_eq].
    reflexivity.
  - intros garmentFile garmentInfo st1 request k Hlt Hbegin.
    unfold handleGarmentSelect. rewrite Hbegin.
    unfold handleGarmentSelect_begin in Hbegin.
    repeat case_match; try done. injection Hbegin as <- <- <-.
    eexists. split; [reflexivity|].
    erewrite availablePoseKeys_lookup; [|simpl]; last first.
    { rewrite lookup_app_r; rewrite length_take, Nat.min_l by lia; [|lia].
      by rewrite Nat.sub_diag. }
    reflexivity.
Qed.

(** ** Undo after apply *)

(** X11: removing the last garment right after a delivered try-on gives
    back the active layers and the index from before the try-on; the
    pose index is 0, and the new layer stays behind in the history. *)
Theorem remove_after_apply garmentFile garmentInfo newImageUrl st st1 request k :
  currentOutfitIndex st < length (outfitHistory st) →
  handleGarmentSelect_begin garmentFile garmentInfo st = Awaiting st1 request k →
  ∃ st',
    handleGarmentSelect garmentFile garmentInfo (Fulfilled newImageUrl) st = Some st'
    ∧ activeOutfitLayers (handleRemoveLastGarment st') = activeOutfitLayers st
    ∧ currentOutfitIndex (handleRemoveLastGarment st') = currentOutfitIndex st
    ∧ currentPoseIndex (handleRemoveLastGarment st') = 0
    ∧ outfitHistory (handleRemoveLastGarment st') = outfitHistory st'
    ∧ length (outfitHistory st') = S (S (currentOutfitIndex st)).
Proof.
  intros Hlt Hbegin. unfold handleGarmentSelect. rewrite Hbegin.
  unfold handleGarmentSelect_begin in Hbegin.
  repeat case_match; try done. injection Hbegin as <- <- <-.
  eexists. split; [reflexivity|].
  unfold handleRemoveLastGarment, activeOutfitLayers. simpl.
  rewrite Nat.sub_0_r. split; [|split; [done|split; [done|split; [done|]]]].
  - rewrite take_app_le by (rewrite length_take; lia).
    by rewrite take_take, Nat.min_id.
  - rewrite length_app, length_take, Nat.min_l by lia. simpl. lia.
Qed.

(** ** The outfit stack and its buttons *)

Lemma activeOutfitLayers_length st :
  currentOutfitIndex st < length (outfitHistory st) →
  length (activeOutfitLayers st) = S (currentOutfitIndex st).
Proof. intros Hlt. unfold activeOutfitLayers. rewrite length_take. lia. Qed.

(** X12: with the current index inside the history, the stack enables
    Save exactly above the base layer, which is exactly when
    [handleSaveOutfit], given an image to use as thumbnail, adds an entry;
    and it renders the palette and the remove button on the row of the
    current index and only above the base, which is exactly when
    [handleRemoveLastGarment] changes the state. *)
Theorem outfit_stack_buttons st :
  currentOutfitIndex st < length (outfitHistory st) →
  (canSave (activeOutfitLayers st) = true ↔ 0 < currentOutfitIndex st)
  ∧ (∀ thumbnail now isoNow storageOk,
       displayImageUrl st = Some thumbnail → truthy thumbnail = true →
       (canSave (activeOutfitLayers st) = true ↔
        savedOutfits (handleSaveOutfit now isoNow storageOk st) ≠ savedOutfits st))
  ∧ (∀ index,
       isLastItem (activeOutfitLayers st) index = true ↔
       index = currentOutfitIndex st ∧ 0 < index)
  ∧ ((∃ index, isLastItem (activeOutfitLayers st) index = true) ↔
     handleRemoveLastGarment st ≠ st).
Proof.
  intros Hlt. pose proof (activeOutfitLayers_length st Hlt) as Hlen.
  unfold canSave, isLastItem. rewrite Hlen.
  assert (canSave_pos : (1 <? S (currentOutfitIndex st)) = true ↔
                        0 < currentOutfitIndex st).
  { rewrite Nat.ltb_lt. lia. }
  split; [done|]. split; [|split].
  - intros thumbnail now isoNow storageOk Hurl Htruthy.
    rewrite canSave_pos. unfold handleSaveOutfit. rewrite Hurl, Htruthy, Hlen.
    destruct (Nat.leb_spec (S (currentOutfitIndex st)) 1) as [Hle|Hgt]; simpl.
    + split; [lia|done].
    + split; [|lia]. intros _ Heq.
      assert (length (savedOutfits st) = S (length (savedOutfits st))); [|lia].
      rewrite <- Heq at 1. by destruct storageOk.
  - intros index. rewrite andb_true_iff, Nat.ltb_lt, Nat.eqb_eq. simpl. lia.
  - unfold handleRemoveLastGarment. split.
    + intros (index & Hlast).
      apply andb_true_iff in Hlast as [Hpos%Nat.ltb_lt Heq%Nat.eqb_eq].
      simpl in Heq. destruct (Nat.ltb_spec 0 (currentOutfitIndex st)); [|lia].
      intros Hsame. apply (f_equal currentOutfitIndex) in Hsame. simpl in Hsame. lia.
    + destruct (Nat.ltb_spec 0 (currentOutfitIndex st)); [|done].
      intros _. exists (currentOutfitIndex st).
      apply andb_true_iff. rewrite Nat.ltb_lt, Nat.eqb_eq. simpl. lia.
Qed.

(** ** The garments on the model *)

Lemma garment_ids_of_layers (layers : list OutfitLayer) :
  Forall (λ layer, ∃ g, garment layer = Some g ∧ truthy (item_id g) = true) layers →
  Some <$> omap id (List.filter truthy_opt ((λ layer, item_id <$> garment layer) <$> layers))
  = (λ layer, item_id <$> garment layer) <$> layers.
Proof.
  induction 1 as [|layer layers (g & Hg & Hid) _ IH]; [done|].
  simpl. rewrite Hg. simpl. rewrite Hid. simpl. f_equal. exact IH.
Qed.

(** X13: in a well-formed history whose garments all have a non-empty
    id, [activeGarmentIds] is, in order, the ids of the garments of
    layers 1 to the current index: the base layer contributes nothing,
    undone layers are left out, and there are as many ids as the index
    says. *)
Theorem activeGarmentIds_spec st :
  historyInvariant st →
  (∀ layer g, layer ∈ outfitHistory st → garment layer = Some g →
     truthy (item_id g) = true) →
  Some <$> activeGarmentIds st
    = (λ layer, item_id <$> garment layer)
        <$> take (currentOutfitIndex st) (drop 1 (outfitHistory st))
  ∧ length (activeGarmentIds st) = currentOutfitIndex st.
Proof.
  intros [Hshape Hidx]%historyInvariant_shape Hids.
  assert (Some <$> activeGarmentIds st
          = (λ layer, item_id <$> garment layer)
              <$> take (currentOutfitIndex st) (drop 1 (outfitHistory st))) as Heq.
  { unfold activeGarmentIds, activeOutfitLayers.
    destruct (outfitHistory st) as [|base rest]; [done|].
    destruct Hshape as [Hbase Hrest]. simpl. rewrite Hbase. simpl. rewrite drop_0.
    apply garment_ids_of_layers, Forall_take.
    apply Forall_forall. intros layer Hin.
    destruct (proj1 (Forall_forall _ _) Hrest layer Hin) as [g Hg].
    exists g. split; [done|]. apply (Hids layer g); [by right|done]. }
  split; [done|].
  apply (f_equal length) in Heq. rewrite !length_fmap, length_take, length_drop in Heq.
  lia.
Qed.

(** ** Starting over *)

(** [handleStartOver] keeps the gallery and nothing else: no image is
    displayed afterwards, and finalizing a model photo then gives the
    state of a first session with that photo, plus the saved outfits. *)
Lemma handleStartOver_then_finalize url st :
  savedOutfits (handleStartOver st) = savedOutfits st
  ∧ displayImageUrl (handleStartOver st) = None
  ∧ handleStartOver st
    = setSavedOutfits (savedOutfits st) (initialState defaultWardrobe)
  ∧ handleModelFinalized url (handleStartOver st)
    = setSavedOutfits (savedOutfits st)
        (handleModelFinalized url (initialState defaultWardrobe)).
Proof. done. Qed.

(** X14: [handleStartOver] does not cancel a try-on call in flight.  If
    that call is delivered after the reset, its continuation makes the
    history the new garment layer alone and moves the index to 1: there
    is no base layer, the index is outside the history, and with no model
    photo nothing is displayed. *)
Theorem start_over_keeps_call_in_flight garmentFile garmentInfo newImageUrl
    st st1 request k :
  handleGarmentSelect_begin garmentFile garmentInfo st = Awaiting st1 request k →
  ∃ st',
    settle k (Fulfilled newImageUrl) (handleStartOver st1) = Some st'
    ∧ outfitHistory st' =
        [ {| garment := Some garmentInfo;
             poseImages := [(poseKey (currentPoseIndex st), newImageUrl)] |} ]
    ∧ currentOutfitIndex st' = 1
    ∧ ¬ historyInvariant st'
    ∧ displayImageUrl st' = None.
Proof.
  intros Hbegin. unfold handleGarmentSelect_begin in Hbegin.
  repeat case_match; try done. injection Hbegin as <- <- <-.
  eexists. split; [reflexivity|]. simpl.
  split; [done|]. split; [done|]. split; [|done].
  intros (_ & _ & _ & Hidx). simpl in Hidx. lia.
Qed.

(** ** Error translation, continued *)

Lemma string_app_cons (c : Ascii.ascii) (s t : string) :
  String c s +:+ t = String c (s +:+ t).
Proof. reflexivity. Qed.

Lemma string_app_nil_r (s : string) : s +:+ "" = s.
Proof.
  induction s as [|c s IH]; [done|]. by rewrite string_app_cons, IH.
Qed.

Lemma string_app_assoc (s1 s2 s3 : string) :
  (s1 +:+ s2) +:+ s3 = s1 +:+ (s2 +:+ s3).
Proof.
  induction s1 as [|c s1 IH]; [done|]. by rewrite !string_app_cons, IH.
Qed.

Lemma rev_app_app (s1 s2 s3 : string) :
  String.rev_app s1 s2 +:+ s3 = String.rev_app s1 (s2 +:+ s3).
Proof.
  revert s2. induction s1 as [|c s1 IH]; intros s2; simpl; [done|].
  by rewrite IH, string_app_cons.
Qed.

Lemma rev_snoc (c : Ascii.ascii) (acc t : string) :
  String.rev (String c acc) +:+ t = String.rev acc +:+ String c t.
Proof. unfold String.rev. simpl. by rewrite !rev_app_app. Qed.

Lemma includes_tail needle c s :
  includes needle (String c s) = false →
  startsWith needle (String c s) = false ∧ includes needle s = false.
Proof.
  change (includes needle (String c s))
    with (if startsWith needle (String c s) then true else includes needle s).
  by destruct (startsWith needle (String c s)).
Qed.

(** A string without the separator is a single piece. *)
Lemma split_go_last sep acc s :
  includes sep s = false → split_go sep 0 acc s = [String.rev acc +:+ s].
Proof.
  revert acc. induction s as [|c s IH]; intros acc Hnone.
  - simpl. by rewrite string_app_nil_r.
  - apply includes_tail in Hnone as [Hhere Hlater].
    change (split_go sep 0 acc (String c s))
      with (if startsWith sep (String c s)
            then String.rev acc :: split_go sep (String.length sep - 1) EmptyString s
            else split_go sep 0 (String c acc) s).
    rewrite Hhere, IH by done. by rewrite rev_snoc.
Qed.

(** Characters 58 and 32 are the colon and the space. *)
Lemma startsWith_colon_space c s :
  startsWith ": " (String c s)
  = Ascii.eqb (Ascii.ascii_of_nat 58) c
    && match s with
       | String b _ => Ascii.eqb (Ascii.ascii_of_nat 32) b
       | EmptyString => false
       end.
Proof.
  change (startsWith ": " (String c s))
    with (if Ascii.eqb (Ascii.ascii_of_nat 58) c then startsWith " " s else false).
  destruct (Ascii.eqb (Ascii.ascii_of_nat 58) c); [|done]. destruct s as [|b s]; [done|].
  change (startsWith " " (String b s))
    with (if Ascii.eqb (Ascii.ascii_of_nat 32) b then true else false).
  by destruct (Ascii.eqb (Ascii.ascii_of_nat 32) b).
Qed.

(** The first [": "] of a string ends its first piece. *)
Lemma split_go_piece acc a t :
  includes ": " a = false →
  split_go ": " 0 acc (a +:+ ": " +:+ t)
  = (String.rev acc +:+ a) :: split_go ": " 0 EmptyString t.
Proof.
  revert acc. induction a as [|c a IH]; intros acc Hnone.
  - simpl. by rewrite string_app_nil_r.
  - apply includes_tail in Hnone as [Hhere Hlater].
    assert (startsWith ": " (String c (a +:+ ": " +:+ t)) = false) as Hext.
    { rewrite startsWith_colon_space in Hhere |- *.
      destruct (Ascii.eqb (Ascii.ascii_of_nat 58) c); [|done]. unfold andb in *.
      destruct a as [|b a]; [reflexivity|exact Hhere]. }
    change (split_go ": " 0 acc (String c a +:+ ": " +:+ t))
      with (if startsWith ": " (String c (a +:+ ": " +:+ t))
            then String.rev acc
                 :: split_go ": " (String.length ": " - 1) EmptyString
                      (a +:+ ": " +:+ t)
            else split_go ": " 0 (String c acc) (a +:+ ": " +:+ t)).
    rewrite Hext, IH by done. by rewrite rev_snoc.
Qed.

(** X15: the MIME type that [getFriendlyErrorMessage] puts in its message
    is the text between the first and the second [": "] of the nested
    message (or up to its end); it is ['unsupported'] when the message
    has no [": "] or nothing follows it, and it is never empty. *)
Theorem mimeTypeOf_spec :
  (∀ nestedMessage, truthy (mimeTypeOf nestedMessage) = true)
  ∧ (∀ nestedMessage,
       includes ": " nestedMessage = false →
       mimeTypeOf nestedMessage = "unsupported")
  ∧ (∀ before, includes ": " before = false →
       mimeTypeOf (before +:+ ": ") = "unsupported")
  ∧ (∀ before mimeType,
       includes ": " before = false → includes ": " mimeType = false →
       truthy mimeType = true →
       mimeTypeOf (before +:+ ": " +:+ mimeType) = mimeType
       ∧ ∀ rest,
           mimeTypeOf (before +:+ ": " +:+ mimeType +:+ ": " +:+ rest) = mimeType).
Proof.
  unfold mimeTypeOf, split. split; [|split; [|split]].
  - intros nestedMessage. repeat case_match; done.
  - intros nestedMessage Hnone. by rewrite split_go_last.
  - intros before Hnone.
    rewrite <- (string_app_nil_r (before +:+ ": ")), string_app_assoc.
    by rewrite split_go_piece.
  - intros before mimeType Hbefore Hmime Htruthy. split.
    + rewrite split_go_piece, split_go_last by done.
      change (String.rev "" +:+ mimeType) with mimeType. simpl.
      by rewrite Htruthy.
    + intros rest. rewrite !split_go_piece by done.
      change (String.rev "" +:+ mimeType) with mimeType. simpl.
      by rewrite Htruthy.
Qed.

(** X16: [getFriendlyErrorMessage] never returns the empty string, for
    any caught value and any context, so that the state's [error] after a
    rejected call is a message the error banner shows. *)
Theorem getFriendlyErrorMessage_nonempty err context :
  truthy (getFriendlyErrorMessage JSON_parse err context) = true.
Proof.
  unfold getFriendlyErrorMessage.
  repeat case_match; try done. destruct context; reflexivity.
Qed.

(** ** The session as a whole *)

Lemma settle_rejected k err st :
  ∃ st', settle k (Rejected err) st = Some st'
         ∧ outfitHistory st' = outfitHistory st
         ∧ wardrobe st' = wardrobe st.
Proof. destruct k; by eexists. Qed.

Lemma handleGarmentSelect_begin_frame garmentFile garmentInfo st :
  match handleGarmentSelect_begin garmentFile garmentInfo st with
  | Returned s | Awaiting s _ _ =>
      outfitHistory s = outfitHistory st ∧ wardrobe s = wardrobe st
  | Threw => True
  end.
Proof.
  destruct (handleGarmentSelect_begin garmentFile garmentInfo _) eqn:Hbegin; [| done |];
    unfold handleGarmentSelect_begin in Hbegin; repeat case_match; by simplify_eq/=.
Qed.

Lemma handlePoseSelect_begin_frame newIndex st :
  match handlePoseSelect_begin newIndex st with
  | Returned s | Awaiting s _ _ =>
      outfitHistory s = outfitHistory st ∧ wardrobe s = wardrobe st
  | Threw => True
  end.
Proof.
  destruct (handlePoseSelect_begin newIndex _) eqn:Hbegin; [| done |];
    unfold handlePoseSelect_begin in Hbegin; repeat case_match; by simplify_eq/=.
Qed.

Lemma handleRegenerateImage_begin_frame st :
  match handleRegenerateImage_begin st with
  | Returned s | Awaiting s _ _ =>
      outfitHistory s = outfitHistory st ∧ wardrobe s = wardrobe st
  | Threw => True
  end.
Proof.
  destruct (handleRegenerateImage_begin _) eqn:Hbegin; [| done |];
    unfold handleRegenerateImage_begin in Hbegin; repeat case_match; by simplify_eq/=.
Qed.

Lemma handleChangeColor_begin_frame newColor st :
  match handleChangeColor_begin newColor st with
  | Returned s | Awaiting s _ _ =>
      outfitHistory s = outfitHistory st ∧ wardrobe s = wardrobe st
  | Threw => True
  end.
Proof.
  destruct (handleChangeColor_begin newColor _) eqn:Hbegin; [| done |];
    unfold handleChangeColor_begin in Hbegin; repeat case_match; by simplify_eq/=.
Qed.

Lemma launch_frame sys o :
  match o with
  | Returned s | Awaiting s _ _ =>
      outfitHistory s = outfitHistory (store sys) ∧ wardrobe s = wardrobe (store sys)
  | Threw => True
  end →
  outfitHistory (store (launch sys o)) = outfitHistory (store sys)
  ∧ wardrobe (store (launch sys o)) = wardrobe (store sys).
Proof. by destruct o. Qed.

(** Every step either leaves history and wardrobe alone or is the
    settling of a call in flight. *)
Lemma step_cases ev sys sys' :
  step JSON_parse ev sys = Some sys' →
  (outfitHistory (store sys') = outfitHistory (store sys)
   ∧ wardrobe (store sys') = wardrobe (store sys))
  ∨ (∃ n k r, ev = Settle n r ∧ inflight sys !! n = Some k
              ∧ settle k r (store sys) = Some (store sys')).
Proof.
  destruct ev as [garmentFile garmentInfo| |newIndex| |newColor
                  |now isoNow storageOk|outfitId storageOk|n r]; simpl.
  - intros [= <-]. left. apply launch_frame, handleGarmentSelect_begin_frame.
  - intros [= <-]. left. unfold handleRemoveLastGarment. by case_match.
  - intros [= <-]. left. apply launch_frame, handlePoseSelect_begin_frame.
  - intros [= <-]. left. apply launch_frame, handleRegenerateImage_begin_frame.
  - intros [= <-]. left. apply launch_frame, handleChangeColor_begin_frame.
  - intros [= <-]. left. unfold handleSaveOutfit. by repeat case_match.
  - intros [= <-]. left. unfold handleDeleteOutfit. by case_match.
  - destruct (inflight sys !! n) as [k|] eqn:Hk; [|intros [= <-]; by left].
    destruct (settle k r (store sys)) as [st'|] eqn:Hsettle; [|done].
    simpl. intros [= <-]. right. by exists n, k, r.
Qed.

(** A property of history and wardrobe that every continuation keeps
    holds throughout a session. *)
Lemma run_preserves (P : State → Prop) :
  (∀ st s, outfitHistory s = outfitHistory st → wardrobe s = wardrobe st →
           P st → P s) →
  (∀ k r st st', settle k r st = Some st' → P st → P st') →
  ∀ evs sys sys', run JSON_parse evs sys = Some sys' → P (store sys) → P (store sys').
Proof.
  intros Hframe Hsettle evs.
  induction evs as [|ev evs IH]; intros sys sys'; simpl; [by intros [= <-]|].
  destruct (step JSON_parse ev sys) as [sys1|] eqn:Hstep; [|done]. simpl.
  intros Hrun HP. apply (IH sys1 sys' Hrun).
  destruct (step_cases ev sys sys1 Hstep) as [[Hh Hw]|(n & k & r & _ & _ & Hk)].
  - by apply (Hframe (store sys)).
  - by apply (Hsettle k r (store sys)).
Qed.

(** X17: only the delivery of an image changes the history or the
    wardrobe.  Every user action, accepted or not, and every rejected
    call leaves both lists as they are; such a step is always defined. *)
Theorem history_changes_only_on_delivery ev sys :
  (∀ n newImageUrl, ev ≠ Settle n (Fulfilled newImageUrl)) →
  ∃ sys', step JSON_parse ev sys = Some sys'
          ∧ outfitHistory (store sys') = outfitHistory (store sys)
          ∧ wardrobe (store sys') = wardrobe (store sys).
Proof.
  intros Hev.
  assert (∃ sys', step JSON_parse ev sys = Some sys') as [sys' Hstep].
  { destruct ev as [| | | | | | |n [newImageUrl|err]]; simpl; try by eexists.
    - by destruct (Hev n newImageUrl).
    - destruct (inflight sys !! n) as [k|]; [|by eexists].
      destruct (settle_rejected k err (store sys)) as (st' & -> & _). by eexists. }
  exists sys'. split; [done|].
  destruct (step_cases ev sys sys' Hstep) as [?|(n & k & r & -> & _ & Hk)]; [done|].
  destruct r as [newImageUrl|err]; [by destruct (Hev n newImageUrl)|].
  destruct (settle_rejected k err (store sys)) as (st' & Hst' & Hh & Hw).
  rewrite Hk in Hst'. by injection Hst' as <-.
Qed.

Lemma settle_layersRendered k r st st' :
  settle k r st = Some st' → layersRendered st → layersRendered st'.
Proof.
  unfold layersRendered.
  destruct k, r; simpl; intros Hst Hall;
    repeat (case_match; simplify_eq); simplify_eq/=; try done.
  - apply Forall_app. split; [by apply Forall_take|by apply Forall_singleton].
  - apply Forall_insert; [done|]. apply pi_set_nonempty.
  - apply Forall_insert; [done|]. apply pi_set_nonempty.
  - by apply Forall_insert.
  - apply Forall_app. split; [done|by apply Forall_singleton].
Qed.

Lemma displayed_of_rendered k m :
  m ≠ [] →
  ∃ image, match pi_get k m with Some v => Some v | None => firstValue m end
           = Some image
           ∧ image ∈ m.*2.
Proof.
  intros Hne. destruct (pi_get k m) as [v|] eqn:Hget.
  - exists v. split; [done|]. by eapply pi_get_value.
  - destruct m as [|[k0 v0] m]; [done|]. exists v0. split; [done|]. by left.
Qed.

(** X18: from [handleModelFinalized] on, whatever the user does and
    however the calls settle, there is an active layer, every layer has
    at least one cached render, and the image on display is one of the
    renders of the active layer. *)
Theorem an_image_is_always_displayed url st0 evs :
  ∃ sys layer image,
    run JSON_parse evs (finalized url st0) = Some sys
    ∧ layersRendered (store sys)
    ∧ outfitHistory (store sys) !! currentOutfitIndex (store sys) = Some layer
    ∧ displayImageUrl (store sys) = Some image
    ∧ image ∈ (poseImages layer).*2.
Proof.
  destruct (run_invariant JSON_parse evs (finalized url st0)) as (sys & Hrun & Hinv & _).
  { split; [by apply handleModelFinalized_invariant|].
    simpl. split; [by apply Forall_nil|]. split; [lia|done]. }
  assert (layersRendered (store sys)) as Hrendered.
  { apply (run_preserves layersRendered) with (evs := evs) (sys := finalized url st0).
    - unfold layersRendered. by intros st s ->.
    - apply settle_layersRendered.
    - done.
    - unfold layersRendered. simpl. by apply Forall_singleton. }
  apply historyInvariant_shape in Hinv as [_ Hidx].
  destruct (lookup_lt_is_Some_2 _ _ Hidx) as [layer Hlayer].
  assert (poseImages layer ≠ []) as Hne
    by apply (Forall_lookup_1 _ _ _ _ Hrendered Hlayer).
  destruct (displayed_of_rendered (poseKey (currentPoseIndex (store sys)))
              (poseImages layer) Hne) as (image & Himage & Hin).
  exists sys, layer, image. split; [done|]. split; [done|]. split; [done|].
  split; [|done]. unfold displayImageUrl. rewrite Hlayer.
  by destruct (outfitHistory (store sys)).
Qed.

Lemma settle_wardrobe (initial : list WardrobeItem) k r st st' :
  settle k r st = Some st' →
  NoDup (item_id <$> wardrobe st) ∧ initial `prefix_of` wardrobe st →
  NoDup (item_id <$> wardrobe st') ∧ initial `prefix_of` wardrobe st'.
Proof.
  destruct k as [i p g| | |], r; simpl; intros Hst [Hnodup Hprefix];
    repeat (case_match; simplify_eq); simplify_eq/=; try done.
  split; [by apply addToWardrobe_NoDup|].
  destruct (addToWardrobe_cases g (wardrobe st)) as [[-> _]|[-> _]]; [done|].
  by apply prefix_app_r.
Qed.

(** X19: in a session started with distinct wardrobe ids, the ids stay
    distinct and the items the session started with stay, in their
    order, at the front of the wardrobe. *)
Theorem wardrobe_stays_distinct url st0 evs :
  NoDup (item_id <$> wardrobe st0) →
  ∃ sys,
    run JSON_parse evs (finalized url st0) = Some sys
    ∧ NoDup (item_id <$> wardrobe (store sys))
    ∧ wardrobe st0 `prefix_of` wardrobe (store sys).
Proof.
  intros Hnodup.
  destruct (run_invariant JSON_parse evs (finalized url st0)) as (sys & Hrun & _).
  { split; [by apply handleModelFinalized_invariant|].
    simpl. split; [by apply Forall_nil|]. split; [lia|done]. }
  exists sys. split; [done|].
  apply (run_preserves
           (λ st, NoDup (item_id <$> wardrobe st)
                  ∧ wardrobe st0 `prefix_of` wardrobe st))
    with (evs := evs) (sys := finalized url st0).
  - by intros st s _ ->.
  - apply settle_wardrobe.
  - done.
  - done.
Qed.

Lemma step_busy ev sys sys' :
  sysInvariant sys →
  (isLoading (store sys) = true → inflight sys ≠ []) →
  step JSON_parse ev sys = Some sys' →
  isLoading (store sys') = true → inflight sys' ≠ [].
Proof.
  intros Hinv Hbusy.
  assert (∀ o, outcomeOk (store sys) o →
            isLoading (store (launch sys o)) = true → inflight (launch sys o) ≠ [])
    as Hlaunch.
  { intros [s| |s request k]; simpl; [|done|].
    - intros (_ & -> & _). done.
    - intros _ _. by destruct (inflight sys). }
  destruct ev as [garmentFile garmentInfo| |newIndex| |newColor
                  |now isoNow storageOk|outfitId storageOk|n r]; simpl.
  - intros [= <-]. apply Hlaunch, handleGarmentSelect_begin_ok, Hinv.
  - intros [= <-]. simpl. unfold handleRemoveLastGarment. by case_match.
  - intros [= <-]. apply Hlaunch, handlePoseSelect_begin_ok.
  - intros [= <-]. apply Hlaunch, handleRegenerateImage_begin_ok.
  - intros [= <-]. apply Hlaunch, handleChangeColor_begin_ok.
  - intros [= <-]. simpl. unfold handleSaveOutfit. by repeat case_match.
  - intros [= <-]. simpl. unfold handleDeleteOutfit. by case_match.
  - destruct (inflight sys !! n) as [k|] eqn:Hk; [|by intros [= <-]].
    destruct (settle k r (store sys)) as [st'|] eqn:Hsettle; [|done].
    simpl. intros [= <-]. simpl.
    rewrite (settle_not_loading JSON_parse _ _ _ _ Hsettle). done.
Qed.

Lemma run_busy evs sys :
  sysInvariant sys →
  (isLoading (store sys) = true → inflight sys ≠ []) →
  ∃ sys', run JSON_parse evs sys = Some sys'
          ∧ sysInvariant sys'
          ∧ (isLoading (store sys') = true → inflight sys' ≠ []).
Proof.
  revert sys. induction evs as [|ev evs IH]; intros sys Hinv Hbusy; [by eexists|].
  destruct (step_invariant JSON_parse ev sys Hinv) as (sys1 & Hstep & Hinv1).
  simpl. rewrite Hstep. simpl. apply IH; [done|].
  by apply (step_busy ev sys sys1).
Qed.

(** X20: in a session finalized with the busy flag clear, at most one
    call is ever in flight, and the busy flag is set exactly while one
    is. *)
Theorem busy_exactly_while_in_flight url st0 evs :
  isLoading st0 = false →
  ∃ sys,
    run JSON_parse evs (finalized url st0) = Some sys
    ∧ length (inflight sys) ≤ 1
    ∧ (isLoading (store sys) = true ↔ inflight sys ≠ []).
Proof.
  intros Hidle.
  destruct (run_busy evs (finalized url st0)) as (sys & Hrun & Hinv & Hbusy).
  - split; [by apply handleModelFinalized_invariant|].
    simpl. split; [by apply Forall_nil|]. split; [lia|done].
  - simpl. by rewrite Hidle.
  - destruct Hinv as (_ & _ & Hone & Hflag). exists sys. by repeat split.
Qed.

End MoreFacts.

(** * The further properties at work on the worked session *)

Lemma handlePoseSelect_generated_witness :
  (∃ st1 request k, handlePoseSelect_begin 1 session1 = Awaiting st1 request k)
  ∧ ∃ st',
      handlePoseSelect parseKnown 1 (Fulfilled "g1-p1.png") session1 = Some st'
      ∧ currentPoseIndex st' = 1
      ∧ handlePoseSelect_begin 1 (setCurrentPoseIndex 0 st')
        = Returned (setCurrentPoseIndex 1 st').
Proof.
  assert (∃ st1 request k, handlePoseSelect_begin 1 session1 = Awaiting st1 request k)
    as (st1 & request & k & Hbegin) by (by eexists _, _, _).
  destruct (handlePoseSelect_generated parseKnown 1 "g1-p1.png" session1 _ _ _ Hbegin)
    as (layer & baseImage & st' & layer' & _ & _ & _ & Hrun & _ & _ & _ & _ & _ & _
        & _ & Hpose & _ & Hagain).
  split; [by eexists _, _, _|]. exists st'.
  split; [done|]. split; [done|]. apply Hagain; [reflexivity|lia].
Defined.

Lemma handlePoseSelect_cached_witness :
  isLoading session2 = false
  ∧ ∃ st',
      handlePoseSelect parseKnown 0 (Fulfilled "unused.png") session2 = Some st'
      ∧ currentPoseIndex st' = 0
      ∧ displayImageUrl st' = Some "g1.png"
      ∧ handlePoseSelect parseKnown 0 (Fulfilled "unused.png") st' = Some st'.
Proof.
  assert (isLoading session2 = false) as Hidle by reflexivity.
  destruct (handlePoseSelect_cached parseKnown 0 session2
              {| garment := Some sweat;
                 poseImages := [(poseKey 0, "g1.png"); (poseKey 1, "g1-p1.png")] |}
              "g1.png" (Fulfilled "unused.png") Hidle eq_refl eq_refl eq_refl)
    as (st' & Hrun & _ & Hpose & _ & _ & Hshown & Hagain).
  split; [done|]. by exists st'.
Defined.

Lemma handleRegenerateImage_success_witness :
  (∃ st1 k,
     handleRegenerateImage_begin session2
     = Awaiting st1 (regenerateFromUrl (item_url sweat) "Dave's crush" "m.png") k)
  ∧ ∃ st' layer',
      handleRegenerateImage parseKnown (Fulfilled "again.png") session2 = Some st'
      ∧ outfitHistory st' !! 1 = Some layer'
      ∧ pi_get (poseKey 1) (poseImages layer') = Some "again.png"
      ∧ pi_get (poseKey 0) (poseImages layer') = Some "g1.png".
Proof.
  assert (∃ st1 k,
            handleRegenerateImage_begin session2
            = Awaiting st1 (regenerateFromUrl (item_url sweat) "Dave's crush" "m.png") k)
    as (st1 & k & Hbegin) by (by eexists _, _).
  destruct (handleRegenerateImage_success parseKnown "again.png" session2 _ _ _ Hbegin)
    as (layer & g & previousLayer & baseModelImage & st' & layer' & _ & Hlayer & _ & _
        & _ & _ & Hrun & Hnew & _ & Hget & Hother & _).
  split; [by eexists _, _|]. exists st', layer'.
  split; [done|]. split; [done|]. split; [done|].
  rewrite (Hother (poseKey 0)) by done.
  vm_compute in Hlayer. by injection Hlayer as <-.
Defined.

Lemma base_layer_is_not_regenerated_witness :
  canRegenerate session0 = false
  ∧ handleRegenerateImage_begin session0 = Returned session0
  ∧ handleChangeColor_begin "Red" session0 = Returned session0.
Proof.
  assert (canRegenerate session0 = false) as Hbase by reflexivity.
  destruct (base_layer_is_not_regenerated parseKnown session0 "Red"
              (Fulfilled "unused.png") (or_introl Hbase))
    as (Hregenerate & _ & Hcolor & _).
  done.
Defined.

Lemma rejected_call_keeps_store_witness :
  ∃ st1 request k st',
    handleChangeColor_begin "Red" session2 = Awaiting st1 request k
    ∧ settle parseKnown k (Rejected (VError "quota exceeded")) st1 = Some st'
    ∧ outfitHistory st' = outfitHistory session2
    ∧ isLoading st' = false
    ∧ error st' = Some "Failed to change color. quota exceeded".
Proof.
  destruct (rejected_call_keeps_store parseKnown session2) as (_ & _ & _ & Hcolor).
  assert (∃ st1 request k, handleChangeColor_begin "Red" session2 = Awaiting st1 request k)
    as (st1 & request & k & Hbegin) by (by eexists _, _, _).
  destruct (Hcolor "Red" st1 request k (VError "quota exceeded") Hbegin)
    as (st' & Hsettle & Hhist & _ & _ & _ & _ & Hflag & Herror).
  exists st1, request, k, st'. by repeat split.
Defined.

Lemma delivered_image_is_displayed_witness :
  currentOutfitIndex session2 < length (outfitHistory session2)
  ∧ ∃ st',
      handleGarmentSelect parseKnown "tee-file" tee (Fulfilled "g2.png") session2
        = Some st'
      ∧ displayImageUrl st' = Some "g2.png".
Proof.
  assert (currentOutfitIndex session2 < length (outfitHistory session2)) as Hlt
    by (vm_compute; lia).
  destruct (delivered_image_is_displayed parseKnown "g2.png" session2 Hlt)
    as (Hgarment & _).
  split; [done|]. by apply (Hgarment "tee-file" tee _ _ _ eq_refl).
Defined.

Lemma handleDeleteOutfit_spec_witness :
  savedOutfits (handleDeleteOutfit "outfit-1761998400000" true savedTwice) = []
  ∧ savedOutfits (handleDeleteOutfit "outfit-0" false savedTwice)
    = savedOutfits savedTwice.
Proof.
  destruct (handleDeleteOutfit_spec "outfit-0" false savedTwice)
    as (_ & _ & Habsent & _).
  split; [by vm_compute|]. apply Habsent.
  intros outfit Hin Hid. vm_compute in Hin.
  apply elem_of_cons in Hin as [->|Hin]; [by vm_compute in Hid|].
  apply elem_of_cons in Hin as [->|Hin]; [by vm_compute in Hid|].
  by apply elem_of_nil in Hin.
Defined.

Lemma save_then_delete_witness :
  (2 ≤ length (activeOutfitLayers session2))%nat
  ∧ displayImageUrl session2 = Some "g1-p1.png"
  ∧ savedOutfits
      (handleDeleteOutfit ("outfit-" +:+ pretty 1761998400000%Z) true savedOnce)
    = savedOutfits session2.
Proof.
  assert (2 ≤ length (activeOutfitLayers session2)) as Hlen by (vm_compute; lia).
  assert (displayImageUrl session2 = Some "g1-p1.png") as Hurl by reflexivity.
  destruct (save_then_delete 1761998400000 "2025-11-01T12:00:00.000Z" true true
              session2 "g1-p1.png" Hlen Hurl eq_refl) as [_ Hback].
  split; [done|]. split; [done|]. apply Hback.
  intros old Hold. by apply elem_of_nil in Hold.
Defined.

Lemma applied_garment_joins_wardrobe_witness :
  (∃ st1 request k,
     handleGarmentSelect_begin "tee-file" tee session2 = Awaiting st1 request k)
  ∧ ∃ st',
      handleGarmentSelect parseKnown "tee-file" tee (Fulfilled "g2.png") session2
        = Some st'
      ∧ wardrobe st' = wardrobe session2.
Proof.
  assert (∃ st1 request k,
            handleGarmentSelect_begin "tee-file" tee session2 = Awaiting st1 request k)
    as (st1 & request & k & Hbegin) by (by eexists _, _, _).
  destruct (applied_garment_joins_wardrobe parseKnown "tee-file" tee "g2.png"
              session2 _ _ _ Hbegin) as (st' & Hrun & _ & Hpresent & _).
  split; [by eexists _, _, _|]. exists st'. split; [done|].
  apply Hpresent. exists tee. split; [|done]. right. by left.
Defined.

Lemma remove_after_apply_witness :
  currentOutfitIndex session2 < length (outfitHistory session2)
  ∧ ∃ st',
      handleGarmentSelect parseKnown "tee-file" tee (Fulfilled "g2.png") session2
        = Some st'
      ∧ activeOutfitLayers (handleRemoveLastGarment st') = activeOutfitLayers session2
      ∧ length (outfitHistory (handleRemoveLastGarment st')) = 3.
Proof.
  assert (currentOutfitIndex session2 < length (outfitHistory session2)) as Hlt
    by (vm_compute; lia).
  destruct (remove_after_apply parseKnown "tee-file" tee "g2.png" session2 _ _ _
              Hlt eq_refl) as (st' & Hrun & Hactive & _ & _ & Hhist & Hlen).
  split; [done|]. exists st'. split; [done|]. split; [done|].
  by rewrite Hhist, Hlen.
Defined.

Lemma outfit_stack_buttons_witness :
  currentOutfitIndex session2 < length (outfitHistory session2)
  ∧ canSave (activeOutfitLayers session2) = true
  ∧ isLastItem (activeOutfitLayers session2) 1 = true
  ∧ isLastItem (activeOutfitLayers session2) 0 = false
  ∧ handleRemoveLastGarment session2 ≠ session2.
Proof.
  assert (currentOutfitIndex session2 < length (outfitHistory session2)) as Hlt
    by (vm_compute; lia).
  destruct (outfit_stack_buttons session2 Hlt) as (Hsave & _ & Hlast & Hremove).
  split; [done|]. split; [apply Hsave; vm_compute; lia|].
  assert (isLastItem (activeOutfitLayers session2) 1 = true) as Hrow
    by (apply Hlast; split; [reflexivity|lia]).
  split; [done|]. split; [done|]. apply Hremove. by exists 1.
Defined.

Lemma activeGarmentIds_spec_witness :
  historyInvariant session3
  ∧ activeGarmentIds session3 = ["gemini-sweat"; "gemini-tee"]
  ∧ length (activeGarmentIds session3) = currentOutfitIndex session3.
Proof.
  assert (historyInvariant session3) as Hinv.
  { split; [done|]. split; [by intros base [= <-]|]. split; [|vm_compute; lia].
    intros [|[|[|i]]] layer Hpos Hlayer; vm_compute in Hlayer;
      [lia|by injection Hlayer as <-|by injection Hlayer as <-|done]. }
  assert (∀ layer g, layer ∈ outfitHistory session3 → garment layer = Some g →
            truthy (item_id g) = true) as Hids.
  { intros layer g Hin Hg. vm_compute in Hin.
    repeat (apply elem_of_cons in Hin as [->|Hin]; [by simplify_eq/=|]).
    by apply elem_of_nil in Hin. }
  destruct (activeGarmentIds_spec session3 Hinv Hids) as [_ Hlen].
  split; [done|]. split; [reflexivity|done].
Defined.

Lemma start_over_keeps_call_in_flight_witness :
  ∃ st1 request k st',
    handleGarmentSelect_begin "tee-file" tee session2 = Awaiting st1 request k
    ∧ settle parseKnown k (Fulfilled "g2.png") (handleStartOver st1) = Some st'
    ∧ length (outfitHistory st') = 1
    ∧ currentOutfitIndex st' = 1.
Proof.
  assert (∃ st1 request k,
            handleGarmentSelect_begin "tee-file" tee session2 = Awaiting st1 request k)
    as (st1 & request & k & Hbegin) by (by eexists _, _, _).
  destruct (start_over_keeps_call_in_flight parseKnown "tee-file" tee "g2.png"
              session2 _ _ _ Hbegin) as (st' & Hsettle & Hhist & Hidx & _).
  exists st1, request, k, st'. split; [done|]. split; [done|].
  split; [by rewrite Hhist|done].
Defined.

Lemma mimeTypeOf_spec_witness :
  mimeTypeOf "Unsupported MIME type: image/gif" = "image/gif"
  ∧ mimeTypeOf "Unsupported MIME type" = "unsupported".
Proof.
  destruct mimeTypeOf_spec as (_ & Hnone & _ & Hpiece).
  split.
  - by apply (Hpiece "Unsupported MIME type" "image/gif").
  - by apply Hnone.
Defined.

Lemma history_changes_only_on_delivery_witness :
  ∃ sys',
    step parseKnown RemoveLastGarment {| store := busySession; inflight := [] |}
      = Some sys'
    ∧ currentOutfitIndex (store sys') = 0
    ∧ outfitHistory (store sys') = outfitHistory busySession.
Proof.
  destruct (history_changes_only_on_delivery parseKnown RemoveLastGarment
              {| store := busySession; inflight := [] |})
    as (sys' & Hstep & Hhist & _); [done|].
  exists sys'. split; [done|]. split; [|done].
  vm_compute in Hstep. by injection Hstep as <-.
Defined.

Lemma wardrobe_stays_distinct_witness :
  NoDup (item_id <$> wardrobe (initialState defaultWardrobe))
  ∧ ∃ sys,
      run parseKnown
        [ GarmentSelect "sweat-file" sweat; Settle 0 (Fulfilled "g1.png") ]
        (finalized "m.png" (initialState defaultWardrobe)) = Some sys
      ∧ NoDup (item_id <$> wardrobe (store sys)).
Proof.
  assert (NoDup (item_id <$> wardrobe (initialState defaultWardrobe))) as Hnodup.
  { apply NoDup_cons. split; [|apply NoDup_singleton].
    intros Hin%list_elem_of_singleton. discriminate Hin. }
  destruct (wardrobe_stays_distinct parseKnown "m.png" (initialState defaultWardrobe)
              [ GarmentSelect "sweat-file" sweat; Settle 0 (Fulfilled "g1.png") ]
              Hnodup) as (sys & Hrun & Hdistinct & _).
  split; [done|]. by exists sys.
Defined.

Lemma busy_exactly_while_in_flight_witness :
  isLoading (initialState defaultWardrobe) = false
  ∧ ∃ sys,
      run parseKnown [ GarmentSelect "sweat-file" sweat; RemoveLastGarment ]
        (finalized "m.png" (initialState defaultWardrobe)) = Some sys
      ∧ length (inflight sys) = 1
      ∧ isLoading (store sys) = true.
Proof.
  assert (isLoading (initialState defaultWardrobe) = false) as Hidle by reflexivity.
  destruct (busy_exactly_while_in_flight parseKnown "m.png"
              (initialState defaultWardrobe)
              [ GarmentSelect "sweat-file" sweat; RemoveLastGarment ] Hidle)
    as (sys & Hrun & _ & Hflag).
  split; [done|]. exists sys. split; [done|].
  vm_compute in Hrun. injection Hrun as <-. split; [reflexivity|reflexivity].
Defined.

Lemma available_poses_after_delivery_witness :
  availablePoseKeys session2 = [poseKey 0; poseKey 1]
  ∧ (∃ st', handleRegenerateImage parseKnown (Fulfilled "again.png") session2 = Some st'
            ∧ availablePoseKeys st' = [poseKey 0; poseKey 1])
  ∧ (∃ st', handleChangeColor parseKnown "Red" (Fulfilled "red.png") session2 = Some st'
            ∧ availablePoseKeys st' = [poseKey 1]).
Proof.
  destruct (available_poses_after_delivery parseKnown "red.png" session2)
    as (_ & _ & Hcolor & _).
  destruct (Hcolor "Red" _ _ _ eq_refl) as (st' & Hrun & Hkeys).
  split; [reflexivity|]. split; [by eexists|]. by exists st'.
Defined.
